(** * examples/plsqlrecord.js: binding PL/SQL RECORDs through node-oracledb

    The example is one linear script of awaited driver calls wrapped in
    try / catch / finally.  It is embedded here as a program in a small
    state, trace and exception monad: the state carries the driver's state
    and the one local variable of [run] that is read across the exception
    boundary ([connection]); the trace records every call that leaves the
    script (driver calls with their outcome, [fs.existsSync], [console.log],
    [console.error]); the result says whether the code completed or threw.

    The driver ([require('oracledb')]) is not part of the file.  The
    theorems on failure handling and on the order of the output hold for
    an arbitrary driver, given as a state machine that answers each call
    with a returned or a thrown value.  The theorems on what the remote
    procedure returns are stated against a mock of the driver that runs
    the procedure of the package body.

    Taken for granted: [console.log] and [console.error] do not throw;
    reading a property has no effect of its own; the numbers are integers,
    as the ones the script uses, so that doubling is exact. *)

From Stdlib Require Import String Ascii ZArith List Bool Lia.
Import ListNotations.
Local Open Scope string_scope.
Local Open Scope list_scope.
Local Set Warnings "-register-all".

(** ** JavaScript values *)

(** The values the script builds, passes to the driver and receives from it.
    Numbers are the integers the script uses.  Every object (plain object,
    connection, DbObject class, DbObject instance) is a [VObj] with its
    properties as an association list in literal order. *)
Inductive Value : Type :=
| VUndefined
| VNull
| VBool (b : bool)
| VNum (z : Z)
| VStr (s : string)
| VObj (fields : list (string * Value))
| VArr (elems : list Value).

(** [if (v)]: ToBoolean. *)
Definition truthy (v : Value) : bool :=
  match v with
  | VUndefined | VNull => false
  | VBool b => b
  | VNum z => negb (z =? 0)%Z
  | VStr s => negb (s =? "")
  | VObj _ | VArr _ => true
  end.

Definition is_object (v : Value) : bool :=
  match v with
  | VObj _ => true
  | _ => false
  end.

Fixpoint lookup (k : string) (fields : list (string * Value)) : Value :=
  match fields with
  | [] => VUndefined
  | (k', v) :: rest => if k =? k' then v else lookup k rest
  end.

Fixpoint value_eqb (a b : Value) {struct a} : bool :=
  match a, b with
  | VUndefined, VUndefined => true
  | VNull, VNull => true
  | VBool x, VBool y => Bool.eqb x y
  | VNum x, VNum y => (x =? y)%Z
  | VStr x, VStr y => (x =? y)
  | VObj fa, VObj fb =>
      (fix fields_eqb (l1 l2 : list (string * Value)) {struct l1} : bool :=
         match l1, l2 with
         | [], [] => true
         | (k1, v1) :: r1, (k2, v2) :: r2 =>
             (k1 =? k2) && value_eqb v1 v2 && fields_eqb r1 r2
         | _, _ => false
         end) fa fb
  | VArr la, VArr lb =>
      (fix elems_eqb (l1 l2 : list Value) {struct l1} : bool :=
         match l1, l2 with
         | [], [] => true
         | v1 :: r1, v2 :: r2 => value_eqb v1 v2 && elems_eqb r1 r2
         | _, _ => false
         end) la lb
  | _, _ => false
  end.

(** The error the JavaScript runtime raises for a property read on
    [undefined] or [null], a call of something that is not a function, a
    [new] on something that is not a constructor, or a [for ... of] over
    something that is not iterable. *)
Definition TypeError : Value := VObj [("name", VStr "TypeError")].

(** Completion of a piece of code: it finishes with a value or throws. *)
Inductive Result (A : Type) : Type :=
| Ok (a : A)
| Throw (e : Value).
Arguments Ok {A} a.
Arguments Throw {A} e.

(** [v.k]: throws on [undefined] and [null]; an object gives the property
    or [undefined]; the primitives and arrays have none of the properties
    the script reads ([outBinds], [outbv]). *)
Definition get_prop (v : Value) (k : string) : Result Value :=
  match v with
  | VUndefined | VNull => Throw TypeError
  | VObj fields => Ok (lookup k fields)
  | _ => Ok VUndefined
  end.

(** The values a [for (const b of v)] loop visits: the elements of an
    array, the characters of a string; nothing else here is iterable. *)
Definition iterate (v : Value) : Result (list Value) :=
  match v with
  | VArr elems => Ok elems
  | VStr s => Ok (map (fun c => VStr (String c "")) (list_ascii_of_string s))
  | _ => Throw TypeError
  end.

(** String concatenation [v + '...'] converts its left operand to a string;
    [process.env.HOME] is a string or undefined. *)
Definition env_to_string (v : option string) : string :=
  match v with
  | Some s => s
  | None => "undefined"
  end.

(** ** The outside world *)

(** Calls into the driver. *)
Inductive Call : Type :=
| CInitOracleClient (opts : Value)
| CGetConnection (config : Value)
| CMethod (recv : Value) (meth : string) (args : list Value)
| CNew (cls : Value) (args : list Value).

Inductive Outcome : Type :=
| Returns (v : Value)
| Throws (e : Value).

(** What an observer of the process sees, in order.  [EvRaise] marks a
    [TypeError] raised by the runtime inside the script. *)
Inductive Event : Type :=
| EvExistsSync (path : Value) (found : bool)
| EvCall (c : Call) (o : Outcome)
| EvRaise (e : Value)
| EvLog (v : Value)
| EvError (v : Value).

(** A driver: any state machine that answers each call. *)
Record Driver : Type := {
  dstate : Type;
  respond : dstate -> Call -> dstate * Outcome
}.

(** [process.platform], [process.env.HOME] and the file system as
    [fs.existsSync] sees it. *)
Record Host : Type := {
  platform : string;
  env_HOME : option string;
  existsSync : string -> bool
}.

(** [fs.existsSync(p)] never throws; for a path that is not a string it
    answers false. *)
Definition fs_existsSync (h : Host) (p : Value) : bool :=
  match p with
  | VStr s => existsSync h s
  | _ => false
  end.

(** ** The monad of the script *)

Section Script.

Variable D : Driver.
Variable host : Host.

(** [require('./dbconfig.js')] and the constant [oracledb.BIND_OUT]: values
    the script only passes on. *)
Variable dbConfig : Value.
Variable BIND_OUT : Value.

(** The driver's state and the local variable [connection] of [run]. *)
Record Frame : Type := mkFrame {
  ds : dstate D;
  connection : Value
}.

(** One run of a piece of code: the frame it leaves, the events it emits
    and its completion. *)
Record Run (A : Type) : Type := mkRun {
  st : Frame;
  out : list Event;
  res : Result A
}.
Arguments mkRun {A} st out res.
Arguments st {A} r.
Arguments out {A} r.
Arguments res {A} r.

Definition M (A : Type) : Type := Frame -> Run A.

Definition ret {A} (a : A) : M A :=
  fun s => mkRun s [] (Ok a).

Definition bind {A B} (m : M A) (k : A -> M B) : M B :=
  fun s =>
    let r := m s in
    match res r with
    | Ok a => let r' := k a (st r) in mkRun (st r') (out r ++ out r') (res r')
    | Throw e => mkRun (st r) (out r) (Throw e)
    end.

Notation "x <- m ;; k" := (bind m (fun x => k))
  (at level 100, m at next level, right associativity).
Notation "m ;; k" := (bind m (fun _ => k))
  (at level 100, right associativity).

(** The runtime raises [e] inside the script. *)
Definition raise {A} (e : Value) : M A :=
  fun s => mkRun s [EvRaise e] (Throw e).

Definition lift {A} (r : Result A) : M A :=
  match r with
  | Ok a => ret a
  | Throw e => raise e
  end.

(** [try { m } catch (e) { h e }] *)
Definition try_catch {A} (m : M A) (h : Value -> M A) : M A :=
  fun s =>
    let r := m s in
    match res r with
    | Ok a => r
    | Throw e => let r' := h e (st r) in mkRun (st r') (out r ++ out r') (res r')
    end.

(** [try { m } finally { f }]: [f] runs on every exit of [m]; the completion
    is that of [m] unless [f] itself throws. *)
Definition finally {A} (m : M A) (f : M unit) : M A :=
  fun s =>
    let r := m s in
    let r' := f (st r) in
    mkRun (st r') (out r ++ out r')
      (match res r' with
       | Ok _ => res r
       | Throw e => Throw e
       end).

Fixpoint for_each {A} (l : list A) (body : A -> M unit) : M unit :=
  match l with
  | [] => ret tt
  | x :: rest => body x ;; for_each rest body
  end.

(** [for (const b of v) { body b }] *)
Definition for_of (v : Value) (body : Value -> M unit) : M unit :=
  bs <- lift (iterate v) ;; for_each bs body.

(** [await] of a driver call: the driver answers, the answer is observed,
    a thrown value (a rejected promise) is rethrown at the [await]. *)
Definition call (c : Call) : M Value :=
  fun s =>
    let a := respond D (ds s) c in
    mkRun (mkFrame (fst a) (connection s)) [EvCall c (snd a)]
      (match snd a with
       | Returns v => Ok v
       | Throws e => Throw e
       end).

(** [await recv.meth(args)]: only an object has methods. *)
Definition invoke (recv : Value) (meth : string) (args : list Value) : M Value :=
  if is_object recv then call (CMethod recv meth args) else raise TypeError.

(** [new cls(args)] *)
Definition construct (cls : Value) (args : list Value) : M Value :=
  if is_object cls then call (CNew cls args) else raise TypeError.

Definition prop (v : Value) (k : string) : M Value :=
  lift (get_prop v k).

Definition console_log (v : Value) : M unit :=
  fun s => mkRun s [EvLog v] (Ok tt).

Definition console_error (v : Value) : M unit :=
  fun s => mkRun s [EvError v] (Ok tt).

(** [fs.existsSync(p)] *)
Definition fs_exists (p : Value) : M bool :=
  fun s => mkRun s [EvExistsSync p (fs_existsSync host p)] (Ok (fs_existsSync host p)).

(** The local variable [connection]. *)
Definition get_connection : M Value :=
  fun s => mkRun s [] (Ok (connection s)).

Definition set_connection (v : Value) : M unit :=
  fun s => mkRun (mkFrame (ds s) v) [] (Ok tt).

(** ** The script *)

(** Lines 41-46: the client-library directory, left undefined on every
    platform but Windows and macOS. *)
Definition libPath : Value :=
  if platform host =? "win32" then
    VStr "C:\oracle\instantclient_19_12"
  else if platform host =? "darwin" then
    VStr (env_to_string (env_HOME host) ++ "/Downloads/instantclient_19_8")
  else VUndefined.

(** Lines 47-49, run when the module is loaded.  [&&] evaluates its right
    operand only when the left one is truthy. *)
Definition module_init : M unit :=
  found <- (if truthy libPath then fs_exists libPath else ret false) ;;
  if found
  then (_ <- call (CInitOracleClient (VObj [("libDir", libPath)])) ;; ret tt)
  else ret tt.

(** Line 55. *)
Definition plsql : string := "CALL rectest.myproc(:inbv, :outbv)".

(** Lines 65-78: the package specification and the package body. *)
Definition package_spec : string :=
  "CREATE OR REPLACE PACKAGE rectest AS
         TYPE rectype IS RECORD (name VARCHAR2(40), pos NUMBER);
         PROCEDURE myproc (p_in IN rectype, p_out OUT rectype);
       END rectest;".

Definition package_body : string :=
  "CREATE OR REPLACE PACKAGE BODY rectest AS
         PROCEDURE myproc (p_in IN rectype, p_out OUT rectype) AS
         BEGIN
           p_out := p_in;
           p_out.pos := p_out.pos * 2;
         END;
       END rectest;".

Definition stmts : list string := [package_spec; package_body].

(** Line 59. *)
Definition connect : M unit :=
  c <- call (CGetConnection dbConfig) ;;
  set_connection c.

(** Lines 80-86: each statement in a try / catch of its own. *)
Definition create_package : M unit :=
  for_each stmts (fun s =>
    try_catch
      (conn <- get_connection ;;
       _ <- invoke conn "execute" [VStr s] ;;
       ret tt)
      (fun e => console_error e)).

(** Line 93. *)
Definition get_class : M Value :=
  conn <- get_connection ;;
  invoke conn "getDbObjectClass" [VStr "RECTEST.RECTYPE"].

(** The object literal [{ NAME: n, POS: p }]. *)
Definition record_literal (n : string) (p : Z) : Value :=
  VObj [("NAME", VStr n); ("POS", VNum p)].

(** [{ type: RecTypeClass, dir: oracledb.BIND_OUT }] *)
Definition out_bind (RecTypeClass : Value) : Value :=
  VObj [("type", RecTypeClass); ("dir", BIND_OUT)].

(** [result = await connection.execute(plsql, binds);
     console.log(result.outBinds.outbv);] *)
Definition execute_and_print (binds : Value) : M unit :=
  conn <- get_connection ;;
  result <- invoke conn "execute" [VStr plsql; binds] ;;
  outBinds <- prop result "outBinds" ;;
  outbv <- prop outBinds "outbv" ;;
  console_log outbv.

(** Lines 104-107: the instance [obj] is bound as it is. *)
Definition instance_binds (RecTypeClass obj : Value) : Value :=
  VObj [("inbv", obj); ("outbv", out_bind RecTypeClass)].

(** Lines 101-110, for the record [{ NAME: n, POS: p }]: an instance made
    with the constructor is bound. *)
Definition bind_instance (RecTypeClass : Value) (n : string) (p : Z) : M unit :=
  console_log (VStr "Using the constructor to create an object:") ;;
  obj <- construct RecTypeClass [record_literal n p] ;;
  execute_and_print (instance_binds RecTypeClass obj).

Definition newline : string := String (ascii_of_nat 10) "".

(** Lines 114-117: the values are bound with the class as their type. *)
Definition values_binds (RecTypeClass : Value) (n : string) (p : Z) : Value :=
  VObj [("inbv", VObj [("type", RecTypeClass); ("val", record_literal n p)]);
        ("outbv", out_bind RecTypeClass)].

(** Lines 112-120. *)
Definition bind_values (RecTypeClass : Value) (n : string) (p : Z) : M unit :=
  console_log (VStr (newline ++ "Binding the record values directly:")) ;;
  execute_and_print (values_binds RecTypeClass n p).

(** Lines 123-126: the values are bound with the name of the type. *)
Definition named_binds (RecTypeClass : Value) (n : string) (p : Z) : Value :=
  VObj [("inbv", VObj [("type", VStr "RECTEST.RECTYPE");
                       ("val", record_literal n p)]);
        ("outbv", out_bind RecTypeClass)].

(** Lines 122-129. *)
Definition bind_named (RecTypeClass : Value) (n : string) (p : Z) : M unit :=
  execute_and_print (named_binds RecTypeClass n p).

(** Lines 137-140, for the rows given: one [{ inbv: { NAME: n, POS: p } }]
    for each. *)
Definition many_binds (rows : list (string * Z)) : Value :=
  VArr (map (fun r => VObj [("inbv", record_literal (fst r) (snd r))]) rows).

(** Lines 142-147. *)
Definition many_options (RecTypeClass : Value) : Value :=
  VObj [("bindDefs",
         VObj [("inbv", VObj [("type", RecTypeClass)]);
               ("outbv", out_bind RecTypeClass)])].

(** Lines 135-152: one [executeMany] for all the rows, then one line of
    output for each element of [result.outBinds]. *)
Definition bind_many (RecTypeClass : Value) (rows : list (string * Z)) : M unit :=
  console_log (VStr (newline ++ "Example with executeMany():")) ;;
  let binds := many_binds rows in
  let options := many_options RecTypeClass in
  conn <- get_connection ;;
  result <- invoke conn "executeMany" [VStr plsql; binds; options] ;;
  outBinds <- prop result "outBinds" ;;
  for_of outBinds (fun b =>
    outbv <- prop b "outbv" ;;
    console_log outbv).

(** Lines 101-152: the four call sequences against the remote procedure. *)
Definition call_sequences (RecTypeClass : Value) : M unit :=
  bind_instance RecTypeClass "Ship" 12 ;;
  bind_values RecTypeClass "Plane" 34 ;;
  bind_named RecTypeClass "Car" 56 ;;
  bind_many RecTypeClass [("Train", 78%Z); ("Bike", 83%Z)].

(** Lines 59-152: the body of the [try]. *)
Definition main_sequence : M unit :=
  connect ;;
  create_package ;;
  RecTypeClass <- get_class ;;
  call_sequences RecTypeClass.

(** Lines 157-163: the body of the [finally]. *)
Definition cleanup : M unit :=
  conn <- get_connection ;;
  if truthy conn then
    try_catch
      (_ <- invoke conn "close" [] ;; ret tt)
      (fun err => console_error err)
  else ret tt.

(** Lines 51-165.  [let connection, ...;] leaves [connection] undefined. *)
Definition run : M unit :=
  set_connection VUndefined ;;
  finally
    (try_catch main_sequence (fun err => console_error err))
    cleanup.

(** The whole module: the code at top level, then [run();] (line 167). *)
Definition script : M unit :=
  module_init ;;
  run.

End Script.

Arguments mkRun {D A} st out res.
Arguments st {D A} r.
Arguments out {D A} r.
Arguments res {D A} r.
Arguments ret {D A} a s.
Arguments bind {D A B} m k s.
Arguments raise {D A} e s.
Arguments lift {D A} r.
Arguments try_catch {D A} m h s.
Arguments finally {D A} m f s.
Arguments for_each {D A} l body.
Arguments for_of {D} v body.
Arguments call {D} c s.
Arguments invoke {D} recv meth args.
Arguments construct {D} cls args.
Arguments prop {D} v k.
Arguments console_log {D} v s.
Arguments console_error {D} v s.
Arguments fs_exists {D} host p s.
Arguments get_connection {D} s.
Arguments set_connection {D} v s.
Arguments ds {D} f.
Arguments connection {D} f.
Arguments mkFrame {D} ds connection.

Notation "x <- m ;; k" := (bind m (fun x => k))
  (at level 100, m at next level, right associativity).
Notation "m ;; k" := (bind m (fun _ => k))
  (at level 100, right associativity).

(** The condition of line 47: [libPath && fs.existsSync(libPath)]. *)
Definition client_dir_present (h : Host) : bool :=
  truthy (libPath h) && fs_existsSync h (libPath h).

(** The frame in which the script starts against a driver without state. *)
Definition start {D : Driver} (d : dstate D) : Frame D := mkFrame d VUndefined.

(** ** The remote procedure *)

(** [TYPE rectype IS RECORD (name VARCHAR2(40), pos NUMBER)] *)
Record rectype : Type := {
  name : string;
  pos : Z
}.

(** The body of [rectest.myproc] (second statement of [stmts]):
    [p_out := p_in; p_out.pos := p_out.pos * 2;] *)
Definition myproc (p_in : rectype) : rectype :=
  let p_out := p_in in
  {| name := name p_out; pos := (pos p_out * 2)%Z |}.

(** ** A mocked driver *)

(** The driver of the behavioural contracts: every call succeeds, and the
    call of the remote procedure runs [proc] on the record bound to [inbv]
    and binds the result to [outbv]. *)

Section Mock.

Variable BIND_OUT : Value.

(** The procedure the database runs for [CALL rectest.myproc]. *)
Variable proc : rectype -> rectype.

(** Modelled from the spec: the connection handle, the descriptor of the
    record type and an error of the driver, all opaque to the script. *)
Definition mock_connection : Value := VObj [("mock", VStr "Connection")].
Definition mock_class : Value := VObj [("fqn", VStr "RECTEST.RECTYPE")].
Definition mock_error : Value := VObj [("name", VStr "Error")].

(** Modelled from the spec: a record instance is the mapping from its field
    names to scalar values, [NAME] to a string and [POS] to a number. *)
Definition to_record (v : Value) : option rectype :=
  match v with
  | VObj fields =>
      match lookup "NAME" fields, lookup "POS" fields with
      | VStr n, VNum p => Some {| name := n; pos := p |}
      | _, _ => None
      end
  | _ => None
  end.

Definition of_record (r : rectype) : Value :=
  VObj [("NAME", VStr (name r)); ("POS", VNum (pos r))].

(** Modelled from the spec: the type of a bind is the descriptor or the
    qualified name of the type. *)
Definition is_rectype (t : Value) : bool :=
  value_eqb t mock_class || value_eqb t (VStr "RECTEST.RECTYPE").

(** Modelled from the spec: the record an input bind carries.  An instance
    made with the constructor is bound as it is; a bind with a [type]
    carries the plain mapping given as its [val]. *)
Definition in_record (b : Value) : option rectype :=
  match b with
  | VObj fields =>
      match lookup "type" fields with
      | VUndefined => to_record b
      | t => if is_rectype t then to_record (lookup "val" fields) else None
      end
  | _ => None
  end.

(** Modelled from the spec: the one output binding of each call, of the
    record type and of direction out. *)
Definition is_out_bind (b : Value) : bool :=
  value_eqb b (VObj [("type", mock_class); ("dir", BIND_OUT)]).

(** Modelled from the spec: the output binding receives a new record
    instance populated by the remote procedure. *)
Definition out_binds (r : rectype) : Value :=
  VObj [("outbv", of_record (proc r))].

(** Modelled from the spec: [execute(sql, binds)] for the call of the
    procedure. *)
Definition remote_call (binds : Value) : Outcome :=
  match binds with
  | VObj fields =>
      match in_record (lookup "inbv" fields), is_out_bind (lookup "outbv" fields) with
      | Some r, true => Returns (VObj [("outBinds", out_binds r)])
      | _, _ => Throws mock_error
      end
  | _ => Throws mock_error
  end.

(** Modelled from the spec: the rows of a batched call, each a plain
    mapping bound to [inbv]; the outputs come in the order of the rows. *)
Fixpoint remote_rows (rows : list Value) : option (list Value) :=
  match rows with
  | [] => Some []
  | row :: rest =>
      match row with
      | VObj fields =>
          match to_record (lookup "inbv" fields), remote_rows rest with
          | Some r, Some outs => Some (out_binds r :: outs)
          | _, _ => None
          end
      | _ => None
      end
  end.

(** Modelled from the spec: [executeMany(sql, rowsOfBinds, options)] with
    the binding definition shared by the rows. *)
Definition remote_call_many (binds options : Value) : Outcome :=
  match binds, options with
  | VArr rows, VObj opts =>
      match lookup "bindDefs" opts with
      | VObj defs =>
          match lookup "inbv" defs with
          | VObj indef =>
              if is_rectype (lookup "type" indef) && is_out_bind (lookup "outbv" defs)
              then match remote_rows rows with
                   | Some outs => Returns (VObj [("outBinds", VArr outs)])
                   | None => Throws mock_error
                   end
              else Throws mock_error
          | _ => Throws mock_error
          end
      | _ => Throws mock_error
      end
  | _, _ => Throws mock_error
  end.

(** Modelled from the spec: the operations of a connection, [execute],
    [executeMany], [getDbObjectClass] (the descriptor of a type by its
    qualified name) and [close]. *)
Definition mock_method (meth : string) (args : list Value) : Outcome :=
  if meth =? "execute" then
    match args with
    | [VStr _] => Returns (VObj [])
    | [VStr sql; binds] =>
        if sql =? plsql then remote_call binds else Throws mock_error
    | _ => Throws mock_error
    end
  else if meth =? "executeMany" then
    match args with
    | [VStr sql; binds; options] =>
        if sql =? plsql then remote_call_many binds options else Throws mock_error
    | _ => Throws mock_error
    end
  else if meth =? "getDbObjectClass" then
    match args with
    | [VStr n] => if n =? "RECTEST.RECTYPE" then Returns mock_class else Throws mock_error
    | _ => Throws mock_error
    end
  else if meth =? "close" then
    match args with
    | [] => Returns VUndefined
    | _ => Throws mock_error
    end
  else Throws mock_error.

(** Modelled from the spec: the driver as the script consumes it, open
    connection, the operations of the connection, and the constructor of
    the record type. *)
Definition mock_answer (c : Call) : Outcome :=
  match c with
  | CInitOracleClient _ => Returns VUndefined
  | CGetConnection _ => Returns mock_connection
  | CMethod recv meth args =>
      if value_eqb recv mock_connection then mock_method meth args
      else Throws mock_error
  | CNew cls [v] =>
      if value_eqb cls mock_class
      then match to_record v with
           | Some r => Returns (of_record r)
           | None => Throws mock_error
           end
      else Throws mock_error
  | CNew _ _ => Throws mock_error
  end.

Definition mock : Driver :=
  {| dstate := unit; respond := fun u c => (u, mock_answer c) |}.

(** The mock with failures injected: a call for which [fault] gives an
    error throws it, every other call is answered by the mock. *)
Definition faulty (fault : Call -> option Value) : Driver :=
  {| dstate := unit;
     respond := fun u c =>
       match fault c with
       | Some e => (u, Throws e)
       | None => (u, mock_answer c)
       end |}.

End Mock.

(** The frame of a run against the mock once the connection is held. *)
Definition connected (BIND_OUT : Value) (proc : rectype -> rectype) :
    Frame (mock BIND_OUT proc) :=
  mkFrame (D := mock BIND_OUT proc) tt mock_connection.

(** The record of a row of the batched call. *)
Definition row_record (r : string * Z) : rectype :=
  {| name := fst r; pos := snd r |}.

(** ** Observations on a trace *)

(** What [console.log] wrote, what [console.error] wrote, the errors that
    were thrown (by a driver call or by the runtime), and the driver calls
    that were made, each in order. *)
Definition stdout (t : list Event) : list Value :=
  flat_map (fun e => match e with EvLog v => [v] | _ => [] end) t.

Definition stderr (t : list Event) : list Value :=
  flat_map (fun e => match e with EvError v => [v] | _ => [] end) t.

Definition raised (t : list Event) : list Value :=
  flat_map (fun e => match e with
                     | EvCall _ (Throws v) => [v]
                     | EvRaise v => [v]
                     | _ => []
                     end) t.

Definition calls (t : list Event) : list Call :=
  flat_map (fun e => match e with EvCall c _ => [c] | _ => [] end) t.

Definition is_close (c : Call) : bool :=
  match c with
  | CMethod _ meth _ => meth =? "close"
  | _ => false
  end.

Definition is_init (c : Call) : bool :=
  match c with
  | CInitOracleClient _ => true
  | _ => false
  end.

Definition is_connect (c : Call) : bool :=
  match c with
  | CGetConnection _ => true
  | _ => false
  end.

(** The error a completion still carries. *)
Definition pending {A} (r : Result A) : list Value :=
  match r with
  | Ok _ => []
  | Throw e => [e]
  end.

(** What [console.error] writes for the outcome of a call whose failure is
    caught and logged on the spot. *)
Definition logged (o : Outcome) : list Event :=
  match o with
  | Returns _ => []
  | Throws e => [EvError e]
  end.

(** The values a result binds to [outbv]: [result.outBinds.outbv] for a
    single call, [b.outbv] for each [b] of [result.outBinds] for a batched
    one. *)
Definition outbv_of (result : Value) : list Value :=
  match result with
  | VObj fields =>
      match lookup "outBinds" fields with
      | VObj ob => [lookup "outbv" ob]
      | VArr bs =>
          map (fun b => match b with
                        | VObj ob => lookup "outbv" ob
                        | _ => VUndefined
                        end) bs
      | _ => []
      end
  | _ => []
  end.

(** The values bound to [outbv] by the calls of a trace, in order. *)
Definition bound_outputs (t : list Event) : list Value :=
  flat_map (fun e => match e with
                     | EvCall (CMethod _ _ _) (Returns result) => outbv_of result
                     | _ => []
                     end) t.

(** The value of [result.outBinds.outbv]. *)
Definition single_outbv (result : Value) : Result Value :=
  match get_prop result "outBinds" with
  | Ok outBinds => get_prop outBinds "outbv"
  | Throw e => Throw e
  end.

Fixpoint each_outbv (bs : list Value) : Result (list Value) :=
  match bs with
  | [] => Ok []
  | b :: rest =>
      match get_prop b "outbv", each_outbv rest with
      | Ok v, Ok vs => Ok (v :: vs)
      | Throw e, _ => Throw e
      | _, Throw e => Throw e
      end
  end.

(** The values of [b.outbv] for the [b] of [result.outBinds]. *)
Definition batch_outbv (result : Value) : Result (list Value) :=
  match get_prop result "outBinds" with
  | Ok outBinds =>
      match iterate outBinds with
      | Ok bs => each_outbv bs
      | Throw e => Throw e
      end
  | Throw e => Throw e
  end.

(** ** Drivers to run the script against *)

(** A configuration and the value of [oracledb.BIND_OUT] to run the script
    with. *)
Definition sample_config : Value := VObj [("connectString", VStr "localhost/orclpdb1")].
Definition sample_bind_out : Value := VNum 3003.

(** Faults to inject into the mock. *)
Definition refuse_connection (c : Call) : option Value :=
  if is_connect c then Some mock_error else None.

Definition refuse_close (c : Call) : option Value :=
  if is_close c then Some mock_error else None.

Definition refuse_statement (sql : string) (c : Call) : option Value :=
  match c with
  | CMethod _ meth [VStr s] =>
      if (meth =? "execute") && (s =? sql) then Some mock_error else None
  | _ => None
  end.

Definition refuse_class (c : Call) : option Value :=
  match c with
  | CMethod _ meth _ => if meth =? "getDbObjectClass" then Some mock_error else None
  | _ => None
  end.

(** The mock running [myproc], and that mock with one kind of call
    failing. *)
Definition sample_mock : Driver := mock sample_bind_out myproc.
Definition no_connection : Driver := faulty sample_bind_out myproc refuse_connection.
Definition no_package_spec : Driver :=
  faulty sample_bind_out myproc (refuse_statement package_spec).
Definition no_class : Driver := faulty sample_bind_out myproc refuse_class.
Definition no_close : Driver := faulty sample_bind_out myproc refuse_close.

(** ** Discipline *)

(** A piece of code is disciplined when it emits only events that satisfy
    [P], leaves the variable [connection] alone, and accounts for every
    error: each error thrown while it ran was logged, in order, except the
    one its completion still carries. *)
Definition disciplined {D A} (P : Event -> Prop) (m : M D A) : Prop :=
  forall s,
    Forall P (out (m s)) /\
    connection (st (m s)) = connection s /\
    raised (out (m s)) = stderr (out (m s)) ++ pending (res (m s)).

(** Events of the steps that follow the connection: no driver call that
    initialises the client, opens a connection or closes one. *)
Definition mid_event (e : Event) : Prop :=
  match e with
  | EvCall c _ => is_init c = false /\ is_connect c = false /\ is_close c = false
  | EvExistsSync _ _ => False
  | _ => True
  end.

(** The value of [connection] when the [try] is left, given how
    [getConnection] ended. *)
Definition acquired (o : Outcome) : Value :=
  match o with
  | Returns v => v
  | Throws _ => VUndefined
  end.

(** What the [finally] block does with [connection] holding [conn], when
    the driver answers the [close] with [oc]. *)
Definition cleanup_events (conn : Value) (oc : Outcome) : list Event :=
  if truthy conn then
    if is_object conn
    then EvCall (CMethod conn "close" []) oc :: logged oc
    else [EvRaise TypeError; EvError TypeError]
  else [].

(** ** Further observations *)

(** The name of the operation a call asks of the driver. *)
Definition call_name (c : Call) : string :=
  match c with
  | CInitOracleClient _ => "initOracleClient"
  | CGetConnection _ => "getConnection"
  | CMethod _ meth _ => meth
  | CNew _ _ => "new"
  end.

(** The operations a trace asks of the driver, in order. *)
Definition names (t : list Event) : list string :=
  map call_name (calls t).

(** The probes of the file system in a trace, in order. *)
Definition probes (t : list Event) : list (Value * bool) :=
  flat_map (fun e => match e with EvExistsSync p f => [(p, f)] | _ => [] end) t.


(** ** Further drivers and a host *)

(** A Windows machine on which the client directory exists. *)
Definition windows_host : Host :=
  {| platform := "win32";
     env_HOME := None;
     existsSync := fun p => p =? "C:\oracle\instantclient_19_12" |}.

Definition refuse_init (c : Call) : option Value :=
  if is_init c then Some mock_error else None.

Definition refuse_many (c : Call) : option Value :=
  match c with
  | CMethod _ meth _ => if meth =? "executeMany" then Some mock_error else None
  | _ => None
  end.

(** The mock with the client libraries failing to load, and with the
    batched call failing. *)
Definition no_client : Driver := faulty sample_bind_out myproc refuse_init.
Definition no_batch : Driver := faulty sample_bind_out myproc refuse_many.

(** A driver that answers every call with [undefined]: its [getConnection]
    hands over no connection. *)
Definition hollow : Driver :=
  {| dstate := unit; respond := fun u _ => (u, Returns VUndefined) |}.

(** The mock, except that the result of a call of the procedure carries no
    [outBinds]. *)
Definition bare : Driver :=
  {| dstate := unit;
     respond := fun u c =>
       match c with
       | CMethod _ meth [_; _] =>
           if meth =? "execute" then (u, Returns (VObj []))
           else (u, mock_answer sample_bind_out myproc c)
       | _ => (u, mock_answer sample_bind_out myproc c)
       end |}.

(** * Properties *)

(** ** Observations distribute over concatenation *)

Lemma stdout_app (t u : list Event) : stdout (t ++ u) = stdout t ++ stdout u.
Proof. apply flat_map_app. Qed.

Lemma stderr_app (t u : list Event) : stderr (t ++ u) = stderr t ++ stderr u.
Proof. apply flat_map_app. Qed.

Lemma raised_app (t u : list Event) : raised (t ++ u) = raised t ++ raised u.
Proof. apply flat_map_app. Qed.

Lemma calls_app (t u : list Event) : calls (t ++ u) = calls t ++ calls u.
Proof. apply flat_map_app. Qed.

(** Concatenations are compared nested to the right. *)
Ltac list_norm := repeat first [ rewrite <- !app_assoc | progress cbn [app] ].

(** ** Laws of the combinators *)

Section Laws.

Variable D : Driver.

Lemma bind_run {A B} (m : M D A) (k : A -> M D B) (s : Frame D) :
  bind m k s =
  match res (m s) with
  | Ok a =>
      mkRun (st (k a (st (m s)))) (out (m s) ++ out (k a (st (m s))))
        (res (k a (st (m s))))
  | Throw e => mkRun (st (m s)) (out (m s)) (Throw e)
  end.
Proof. reflexivity. Qed.

Lemma bind_out {A B} (m : M D A) (k : A -> M D B) (s : Frame D) :
  out (bind m k s) =
  out (m s) ++ match res (m s) with
               | Ok a => out (k a (st (m s)))
               | Throw _ => []
               end.
Proof.
  unfold bind. destruct (res (m s)); simpl.
  - reflexivity.
  - now rewrite app_nil_r.
Qed.

Lemma bind_res {A B} (m : M D A) (k : A -> M D B) (s : Frame D) :
  res (bind m k s) =
  match res (m s) with
  | Ok a => res (k a (st (m s)))
  | Throw e => Throw e
  end.
Proof. unfold bind. now destruct (res (m s)). Qed.

Lemma bind_st {A B} (m : M D A) (k : A -> M D B) (s : Frame D) :
  st (bind m k s) =
  match res (m s) with
  | Ok a => st (k a (st (m s)))
  | Throw _ => st (m s)
  end.
Proof. unfold bind. now destruct (res (m s)). Qed.

Lemma try_catch_out {A} (m : M D A) (h : Value -> M D A) (s : Frame D) :
  out (try_catch m h s) =
  out (m s) ++ match res (m s) with
               | Ok _ => []
               | Throw e => out (h e (st (m s)))
               end.
Proof.
  unfold try_catch. destruct (res (m s)); simpl.
  - now rewrite app_nil_r.
  - reflexivity.
Qed.

Lemma try_catch_res {A} (m : M D A) (h : Value -> M D A) (s : Frame D) :
  res (try_catch m h s) =
  match res (m s) with
  | Ok a => Ok a
  | Throw e => res (h e (st (m s)))
  end.
Proof. unfold try_catch. now destruct (res (m s)) eqn:E. Qed.

Lemma try_catch_st {A} (m : M D A) (h : Value -> M D A) (s : Frame D) :
  st (try_catch m h s) =
  match res (m s) with
  | Ok _ => st (m s)
  | Throw e => st (h e (st (m s)))
  end.
Proof. unfold try_catch. now destruct (res (m s)). Qed.

(** A failure that is caught and logged leaves nothing to propagate. *)
Lemma try_catch_log_res (m : M D unit) (s : Frame D) :
  res (try_catch m (fun e => console_error e) s) = Ok tt.
Proof.
  rewrite try_catch_res. destruct (res (m s)) as [[]|e]; reflexivity.
Qed.

(** *** Discipline is compositional *)

Section Discipline.

Variable P : Event -> Prop.
Hypothesis P_raise : forall e, P (EvRaise e).
Hypothesis P_log : forall v, P (EvLog v).
Hypothesis P_error : forall v, P (EvError v).

Lemma disciplined_ret {A} (a : A) : disciplined P (ret (D := D) a).
Proof. intros s. simpl. auto. Qed.

Lemma disciplined_raise {A} (e : Value) : disciplined P (raise (D := D) (A := A) e).
Proof. intros s. simpl. auto. Qed.

Lemma disciplined_lift {A} (r : Result A) : disciplined P (lift (D := D) r).
Proof.
  destruct r; [apply disciplined_ret | apply disciplined_raise].
Qed.

Lemma disciplined_bind {A B} (m : M D A) (k : A -> M D B) :
  disciplined P m -> (forall a, disciplined P (k a)) -> disciplined P (bind m k).
Proof.
  intros Hm Hk s. destruct (Hm s) as (F1 & C1 & R1).
  rewrite bind_out, bind_st, bind_res.
  destruct (res (m s)) as [a|e].
  - destruct (Hk a (st (m s))) as (F2 & C2 & R2).
    split; [now apply Forall_app|]. split; [congruence|].
    rewrite raised_app, stderr_app, R1, R2. simpl.
    now rewrite app_nil_r, app_assoc.
  - rewrite app_nil_r. auto.
Qed.

Lemma disciplined_try_catch_log (m : M D unit) :
  disciplined P m -> disciplined P (try_catch m (fun e => console_error e)).
Proof.
  intros Hm s. destruct (Hm s) as (F1 & C1 & R1).
  rewrite try_catch_out, try_catch_st, try_catch_res.
  destruct (res (m s)) as [[]|e]; simpl.
  - rewrite app_nil_r. auto.
  - split; [apply Forall_app; auto|]. split; [assumption|].
    rewrite raised_app, stderr_app, R1. simpl. now rewrite app_nil_r.
Qed.

Lemma disciplined_for_each {A} (l : list A) (body : A -> M D unit) :
  (forall a, disciplined P (body a)) -> disciplined P (for_each l body).
Proof.
  intros Hb. induction l as [|x l IH]; simpl.
  - apply disciplined_ret.
  - apply disciplined_bind; auto.
Qed.

Lemma disciplined_for_of (v : Value) (body : Value -> M D unit) :
  (forall b, disciplined P (body b)) -> disciplined P (for_of v body).
Proof.
  intros Hb. unfold for_of. apply disciplined_bind.
  - apply disciplined_lift.
  - intros bs. now apply disciplined_for_each.
Qed.

Lemma disciplined_call (c : Call) :
  (forall o, P (EvCall c o)) -> disciplined P (call (D := D) c).
Proof.
  intros Hc s. unfold call. simpl.
  split; [auto|]. split; [reflexivity|].
  now destruct (snd (respond D (ds s) c)).
Qed.

Lemma disciplined_invoke (recv : Value) (meth : string) (args : list Value) :
  (forall o, P (EvCall (CMethod recv meth args) o)) ->
  disciplined P (invoke (D := D) recv meth args).
Proof.
  intros Hc. unfold invoke. destruct (is_object recv).
  - now apply disciplined_call.
  - apply disciplined_raise.
Qed.

Lemma disciplined_construct (cls : Value) (args : list Value) :
  (forall o, P (EvCall (CNew cls args) o)) ->
  disciplined P (construct (D := D) cls args).
Proof.
  intros Hc. unfold construct. destruct (is_object cls).
  - now apply disciplined_call.
  - apply disciplined_raise.
Qed.

Lemma disciplined_prop (v : Value) (k : string) : disciplined P (prop (D := D) v k).
Proof. apply disciplined_lift. Qed.

Lemma disciplined_console_log (v : Value) : disciplined P (console_log (D := D) v).
Proof. intros s. simpl. auto. Qed.

Lemma disciplined_get_connection : disciplined P (get_connection (D := D)).
Proof. intros s. simpl. auto. Qed.

End Discipline.

End Laws.

(** ** The steps after the connection are disciplined *)

Ltac discipline :=
  repeat first
    [ apply disciplined_for_of
    | apply disciplined_for_each
    | apply disciplined_try_catch_log
    | apply disciplined_bind
    | apply disciplined_lift
    | apply disciplined_invoke
    | apply disciplined_construct
    | apply disciplined_prop
    | apply disciplined_console_log
    | apply disciplined_get_connection
    | apply disciplined_ret
    | intro ];
  simpl; auto.

Section Steps.

Variable D : Driver.
Variable BIND_OUT : Value.

Lemma create_package_disciplined : disciplined mid_event (create_package D).
Proof. unfold create_package. discipline. Qed.

Lemma get_class_disciplined : disciplined mid_event (get_class D).
Proof. unfold get_class. discipline. Qed.

Lemma execute_and_print_disciplined (binds : Value) :
  disciplined mid_event (execute_and_print D binds).
Proof. unfold execute_and_print. discipline. Qed.

Lemma bind_instance_disciplined (cls : Value) (n : string) (p : Z) :
  disciplined mid_event (bind_instance D BIND_OUT cls n p).
Proof. unfold bind_instance. discipline. Qed.

Lemma bind_values_disciplined (cls : Value) (n : string) (p : Z) :
  disciplined mid_event (bind_values D BIND_OUT cls n p).
Proof. unfold bind_values. discipline. Qed.

Lemma bind_named_disciplined (cls : Value) (n : string) (p : Z) :
  disciplined mid_event (bind_named D BIND_OUT cls n p).
Proof. unfold bind_named. apply execute_and_print_disciplined. Qed.

Lemma bind_many_disciplined (cls : Value) (rows : list (string * Z)) :
  disciplined mid_event (bind_many D BIND_OUT cls rows).
Proof. unfold bind_many. discipline. Qed.

Lemma call_sequences_disciplined (cls : Value) :
  disciplined mid_event (call_sequences D BIND_OUT cls).
Proof.
  unfold call_sequences.
  apply disciplined_bind; [apply bind_instance_disciplined | intros _].
  apply disciplined_bind; [apply bind_values_disciplined | intros _].
  apply disciplined_bind; [apply bind_named_disciplined | intros _].
  apply bind_many_disciplined.
Qed.

End Steps.

(** ** Anatomy of a run *)

Section Anatomy.

Variable D : Driver.
Variable dbConfig : Value.
Variable BIND_OUT : Value.

Lemma connect_run (s : Frame D) :
  connect D dbConfig s =
  let a := respond D (ds s) (CGetConnection dbConfig) in
  mkRun
    (mkFrame (fst a) (match snd a with Returns v => v | Throws _ => connection s end))
    [EvCall (CGetConnection dbConfig) (snd a)]
    (match snd a with Returns _ => Ok tt | Throws e => Throw e end).
Proof.
  unfold connect, bind, call, set_connection. simpl.
  destruct (snd (respond D (ds s) (CGetConnection dbConfig))); reflexivity.
Qed.

Lemma cleanup_run (s : Frame D) :
  out (cleanup D s) =
    cleanup_events (connection s)
      (snd (respond D (ds s) (CMethod (connection s) "close" []))) /\
  res (cleanup D s) = Ok tt.
Proof.
  unfold cleanup, cleanup_events, bind, get_connection. simpl.
  destruct (truthy (connection s)); simpl; [|auto].
  unfold invoke, try_catch, bind, call, raise, console_error.
  destruct (is_object (connection s)); simpl; [|auto].
  destruct (snd (respond D (ds s) (CMethod (connection s) "close" []))); simpl; auto.
Qed.

Lemma main_sequence_run (s : Frame D) :
  main_sequence D dbConfig BIND_OUT s =
  let a := respond D (ds s) (CGetConnection dbConfig) in
  match snd a with
  | Returns conn =>
      let r := (create_package D ;; RecTypeClass <- get_class D ;;
                call_sequences D BIND_OUT RecTypeClass) (mkFrame (fst a) conn) in
      mkRun (st r) (EvCall (CGetConnection dbConfig) (Returns conn) :: out r) (res r)
  | Throws e =>
      mkRun (mkFrame (fst a) (connection s))
        [EvCall (CGetConnection dbConfig) (Throws e)] (Throw e)
  end.
Proof.
  unfold main_sequence. unfold bind at 1. rewrite connect_run. simpl.
  destruct (snd (respond D (ds s) (CGetConnection dbConfig))); reflexivity.
Qed.

Lemma run_eq (s : Frame D) :
  run D dbConfig BIND_OUT s =
  let g := try_catch (main_sequence D dbConfig BIND_OUT)
             (fun err => console_error err) (mkFrame (ds s) VUndefined) in
  let k := cleanup D (st g) in
  mkRun (st k) (out g ++ out k)
    (match res k with
     | Ok _ => res g
     | Throw e => Throw e
     end).
Proof. reflexivity. Qed.

(** One statement in its try / catch: a failure is logged, and the
    completion is normal either way. *)
Lemma statement_run (sql : string) (s : Frame D) :
  is_object (connection s) = true ->
  let c := CMethod (connection s) "execute" [VStr sql] in
  let a := respond D (ds s) c in
  try_catch
    (conn <- get_connection ;; _ <- invoke conn "execute" [VStr sql] ;; ret tt)
    (fun e => console_error e) s =
  mkRun (mkFrame (fst a) (connection s)) (EvCall c (snd a) :: logged (snd a)) (Ok tt).
Proof.
  intros Hobj.
  unfold try_catch, bind, get_connection, invoke, call, console_error, ret.
  simpl. rewrite Hobj. simpl.
  destruct (snd (respond D (ds s) _)); reflexivity.
Qed.

(** The two statements: whatever the driver answers to the first, the
    second is executed, and the loop completes normally. *)
Lemma create_package_run (s : Frame D) :
  is_object (connection s) = true ->
  let c1 := CMethod (connection s) "execute" [VStr package_spec] in
  let c2 := CMethod (connection s) "execute" [VStr package_body] in
  let a1 := respond D (ds s) c1 in
  let a2 := respond D (fst a1) c2 in
  create_package D s =
  mkRun (mkFrame (fst a2) (connection s))
    (EvCall c1 (snd a1) :: logged (snd a1) ++ EvCall c2 (snd a2) :: logged (snd a2))
    (Ok tt).
Proof.
  intros Hobj. unfold create_package, stmts. cbn [for_each].
  rewrite bind_run, statement_run by assumption. cbn [res st out].
  rewrite bind_run, statement_run by assumption.
  cbn [res st out ds connection ret]. now rewrite app_nil_r.
Qed.

Lemma get_class_run (s : Frame D) :
  is_object (connection s) = true ->
  let c := CMethod (connection s) "getDbObjectClass" [VStr "RECTEST.RECTYPE"] in
  let a := respond D (ds s) c in
  get_class D s =
  mkRun (mkFrame (fst a) (connection s)) [EvCall c (snd a)]
    (match snd a with
     | Returns v => Ok v
     | Throws e => Throw e
     end).
Proof.
  intros Hobj. unfold get_class, bind, get_connection, invoke. simpl.
  rewrite Hobj. unfold call. simpl.
  destruct (snd (respond D (ds s) _)); reflexivity.
Qed.

(** From the first statement to the fetch of the class. *)
Lemma after_connect_run (s : Frame D) :
  is_object (connection s) = true ->
  let conn := connection s in
  let c1 := CMethod conn "execute" [VStr package_spec] in
  let c2 := CMethod conn "execute" [VStr package_body] in
  let c3 := CMethod conn "getDbObjectClass" [VStr "RECTEST.RECTYPE"] in
  let a1 := respond D (ds s) c1 in
  let a2 := respond D (fst a1) c2 in
  let a3 := respond D (fst a2) c3 in
  let prefix :=
    EvCall c1 (snd a1) :: logged (snd a1) ++
    EvCall c2 (snd a2) :: logged (snd a2) ++ [EvCall c3 (snd a3)] in
  (create_package D ;; RecTypeClass <- get_class D ;;
   call_sequences D BIND_OUT RecTypeClass) s =
  match snd a3 with
  | Returns cls =>
      let r := call_sequences D BIND_OUT cls (mkFrame (fst a3) conn) in
      mkRun (st r) (prefix ++ out r) (res r)
  | Throws e => mkRun (mkFrame (fst a3) conn) prefix (Throw e)
  end.
Proof.
  intros Hobj. cbv zeta.
  rewrite bind_run, create_package_run by assumption. cbv zeta. cbn [res st out].
  rewrite bind_run, get_class_run by assumption. cbv zeta.
  cbn [res st out ds connection].
  destruct (snd (respond D _ (CMethod _ "getDbObjectClass" _))) as [cls|e].
  - f_equal. list_norm. reflexivity.
  - f_equal. list_norm. reflexivity.
Qed.

Lemma after_connect_disciplined :
  disciplined mid_event
    (create_package D ;; RecTypeClass <- get_class D ;;
     call_sequences D BIND_OUT RecTypeClass).
Proof.
  apply disciplined_bind; [apply create_package_disciplined | intros _].
  apply disciplined_bind; [apply get_class_disciplined | intros cls].
  apply call_sequences_disciplined.
Qed.

(** The [try] with its [catch]: it starts with the [getConnection] call,
    goes on with disciplined steps, logs every error that was thrown,
    leaves in [connection] what was acquired, and completes normally. *)
Lemma guarded_anatomy (s : Frame D) :
  connection s = VUndefined ->
  let o := snd (respond D (ds s) (CGetConnection dbConfig)) in
  let r := try_catch (main_sequence D dbConfig BIND_OUT)
             (fun err => console_error err) s in
  exists t,
    out r = EvCall (CGetConnection dbConfig) o :: t /\
    Forall mid_event t /\
    raised (EvCall (CGetConnection dbConfig) o :: t) = stderr t /\
    connection (st r) = acquired o /\
    res r = Ok tt.
Proof.
  intros Hs o r. subst r.
  rewrite try_catch_out, try_catch_st, try_catch_log_res.
  unfold main_sequence.
  rewrite bind_out, bind_st, bind_res, connect_run. simpl. fold o.
  destruct o as [conn|e]; simpl.
  - destruct (after_connect_disciplined
                (mkFrame (fst (respond D (ds s) (CGetConnection dbConfig))) conn))
      as (F & C & R).
    match type of F with Forall _ (out ?x) => set (r := x) in * end.
    exists (out r ++ match res r with
                     | Ok _ => []
                     | Throw e => [EvError e]
                     end).
    destruct (res r) as [[]|e]; simpl in *.
    + rewrite app_nil_r in *. auto.
    + repeat split; auto.
      * apply Forall_app. split; [assumption | repeat constructor].
      * rewrite raised_app, stderr_app. simpl. now rewrite app_nil_r.
  - exists [EvError e]. rewrite Hs. repeat split; auto.
    repeat constructor.
Qed.

(** A run: the [getConnection] call, the disciplined steps [t], then the
    cleanup; every error thrown before the cleanup is logged in [t], and
    the run completes normally. *)
Lemma run_anatomy (s : Frame D) :
  let o := snd (respond D (ds s) (CGetConnection dbConfig)) in
  exists t oc,
    out (run D dbConfig BIND_OUT s) =
      EvCall (CGetConnection dbConfig) o :: t ++ cleanup_events (acquired o) oc /\
    Forall mid_event t /\
    raised (EvCall (CGetConnection dbConfig) o :: t) = stderr t /\
    res (run D dbConfig BIND_OUT s) = Ok tt.
Proof.
  intros o.
  set (g := try_catch (main_sequence D dbConfig BIND_OUT)
              (fun err => console_error err) (mkFrame (ds s) VUndefined)).
  assert (Hout : out (run D dbConfig BIND_OUT s) = out g ++ out (cleanup D (st g)))
    by reflexivity.
  assert (Hres : res (run D dbConfig BIND_OUT s) =
                 match res (cleanup D (st g)) with
                 | Ok _ => res g
                 | Throw e => Throw e
                 end) by reflexivity.
  destruct (guarded_anatomy (mkFrame (ds s) VUndefined) eq_refl)
    as (t & Ht & F & R & C & G).
  destruct (cleanup_run (st g)) as (Hc & Hk).
  fold g in Ht, C, G. simpl in Ht, R, C. fold o in Ht, R, C.
  exists t, (snd (respond D (ds (st g)) (CMethod (connection (st g)) "close" []))).
  rewrite Hout, Hres, Hk, G, Ht, Hc, C. auto.
Qed.

(** The trace of a run on which a connection object was acquired, up to
    the four call sequences. *)
Lemma run_acquired (s : Frame D) (d1 : dstate D) (fields : list (string * Value)) :
  respond D (ds s) (CGetConnection dbConfig) = (d1, Returns (VObj fields)) ->
  let conn := VObj fields in
  let c1 := CMethod conn "execute" [VStr package_spec] in
  let c2 := CMethod conn "execute" [VStr package_body] in
  let c3 := CMethod conn "getDbObjectClass" [VStr "RECTEST.RECTYPE"] in
  let close := CMethod conn "close" [] in
  let a1 := respond D d1 c1 in
  let a2 := respond D (fst a1) c2 in
  let a3 := respond D (fst a2) c3 in
  out (run D dbConfig BIND_OUT s) =
    EvCall (CGetConnection dbConfig) (Returns conn)
    :: EvCall c1 (snd a1) :: logged (snd a1) ++
       EvCall c2 (snd a2) :: logged (snd a2) ++
       EvCall c3 (snd a3) ::
       match snd a3 with
       | Returns cls =>
           let r := call_sequences D BIND_OUT cls (mkFrame (fst a3) conn) in
           out r ++
           match res r with
           | Ok _ => []
           | Throw e => [EvError e]
           end ++
           cleanup_events conn (snd (respond D (ds (st r)) close))
       | Throws e =>
           EvError e :: cleanup_events conn (snd (respond D (fst a3) close))
       end.
Proof.
  intros H. cbv zeta.
  rewrite run_eq. cbv zeta.
  rewrite try_catch_out, try_catch_st, main_sequence_run.
  cbn [ds connection]. rewrite H. cbn [fst snd]. cbv zeta.
  rewrite after_connect_run by reflexivity. cbv zeta. cbn [ds connection].
  destruct (snd (respond D _ (CMethod _ "getDbObjectClass" _))) as [cls|e].
  - cbn [out res st].
    match goal with
    | |- context [call_sequences D BIND_OUT cls ?f] =>
        destruct (call_sequences_disciplined D BIND_OUT cls f) as (_ & C & _)
    end.
    cbn [connection] in C.
    match type of C with connection (st ?x) = _ => set (r := x) in * end.
    destruct (cleanup_run (st r)) as (Hc & _).
    destruct (res r) as [[]|e]; cbn [out st console_error].
    + rewrite Hc, C. list_norm. reflexivity.
    + rewrite (proj1 (cleanup_run _)). cbn [connection ds].
      rewrite C. list_norm. reflexivity.
  - cbn [out res st console_error].
    rewrite (proj1 (cleanup_run _)). cbn [connection ds].
    list_norm. reflexivity.
Qed.

End Anatomy.

(** ** Which calls a trace holds *)

Lemma mid_event_calls (t : list Event) :
  Forall mid_event t ->
  Forall (fun c => is_init c = false /\ is_connect c = false /\ is_close c = false)
         (calls t).
Proof.
  induction 1 as [|e t He _ IH]; simpl.
  - constructor.
  - destruct e; simpl in *; auto.
Qed.

Lemma filter_nil {A} (f : A -> bool) (l : list A) :
  Forall (fun a => f a = false) l -> filter f l = [].
Proof.
  induction 1 as [|a l Ha _ IH]; simpl.
  - reflexivity.
  - now rewrite Ha.
Qed.

Lemma mid_event_no_close (t : list Event) :
  Forall mid_event t -> filter is_close (calls t) = [].
Proof.
  intros F. apply filter_nil.
  eapply Forall_impl; [|apply mid_event_calls, F]. simpl. tauto.
Qed.

Lemma mid_event_no_init (t : list Event) :
  Forall mid_event t -> filter is_init (calls t) = [].
Proof.
  intros F. apply filter_nil.
  eapply Forall_impl; [|apply mid_event_calls, F]. simpl. tauto.
Qed.

Lemma cleanup_events_no_init (conn : Value) (oc : Outcome) :
  filter is_init (calls (cleanup_events conn oc)) = [].
Proof.
  unfold cleanup_events.
  destruct (truthy conn), (is_object conn), oc; reflexivity.
Qed.

Lemma cleanup_events_accounted (conn : Value) (oc : Outcome) :
  raised (cleanup_events conn oc) = stderr (cleanup_events conn oc).
Proof.
  unfold cleanup_events.
  destruct (truthy conn), (is_object conn), oc; reflexivity.
Qed.

(** ** The connection is released *)

(** C3. On every run on which [getConnection] hands over a connection
    object, whatever the later calls answer, the trace holds exactly one
    [close] call, made on that connection. *)
Theorem connection_closed_exactly_once
    (D : Driver) (dbConfig BIND_OUT : Value) (s : Frame D)
    (d1 : dstate D) (fields : list (string * Value)) :
  respond D (ds s) (CGetConnection dbConfig) = (d1, Returns (VObj fields)) ->
  filter is_close (calls (out (run D dbConfig BIND_OUT s))) =
    [CMethod (VObj fields) "close" []].
Proof.
  intros H.
  destruct (run_anatomy D dbConfig BIND_OUT s) as (t & oc & Ht & F & _ & _).
  rewrite H in Ht. cbn [snd acquired] in Ht. rewrite Ht.
  change (EvCall (CGetConnection dbConfig) (Returns (VObj fields))
            :: t ++ cleanup_events (VObj fields) oc)
    with ([EvCall (CGetConnection dbConfig) (Returns (VObj fields))] ++
            t ++ cleanup_events (VObj fields) oc).
  rewrite !calls_app, !filter_app, (mid_event_no_close t F).
  destruct oc; reflexivity.
Qed.

(** ** A failed connection *)

(** C4. When [getConnection] throws, the run consists of that call and the
    logging of its error: no statement is executed, no class is fetched,
    nothing is bound, and no [close] is attempted. *)
Theorem failed_connection_stops_everything
    (D : Driver) (dbConfig BIND_OUT : Value) (s : Frame D)
    (d1 : dstate D) (e : Value) :
  respond D (ds s) (CGetConnection dbConfig) = (d1, Throws e) ->
  out (run D dbConfig BIND_OUT s) =
    [EvCall (CGetConnection dbConfig) (Throws e); EvError e] /\
  res (run D dbConfig BIND_OUT s) = Ok tt.
Proof.
  intros H.
  rewrite run_eq. unfold try_catch. rewrite main_sequence_run.
  cbn [ds connection]. rewrite H. simpl. auto.
Qed.

(** ** No failure escapes *)

(** C6. Whatever the driver answers to each call, [run] completes normally,
    and the errors written by [console.error] are exactly the errors that
    were thrown, in the order they were thrown. *)
Theorem run_never_rejects
    (D : Driver) (dbConfig BIND_OUT : Value) (s : Frame D) :
  res (run D dbConfig BIND_OUT s) = Ok tt /\
  stderr (out (run D dbConfig BIND_OUT s)) = raised (out (run D dbConfig BIND_OUT s)).
Proof.
  destruct (run_anatomy D dbConfig BIND_OUT s) as (t & oc & Ht & _ & R & K).
  split; [assumption|].
  rewrite Ht.
  change (?e :: t ++ ?u) with ((e :: t) ++ u).
  rewrite raised_app, stderr_app, R, cleanup_events_accounted.
  reflexivity.
Qed.

(** ** The two statements are independent *)

(** C5. When the package specification fails, its error is logged and the
    package body is executed all the same; whatever the driver answers to
    the body ([o2], logged when it is an error), the run goes on with the
    fetch of the class. *)
Theorem package_body_attempted_after_failure
    (D : Driver) (dbConfig BIND_OUT : Value) (s : Frame D)
    (d1 d2 : dstate D) (fields : list (string * Value)) (e1 : Value) :
  respond D (ds s) (CGetConnection dbConfig) = (d1, Returns (VObj fields)) ->
  respond D d1 (CMethod (VObj fields) "execute" [VStr package_spec]) = (d2, Throws e1) ->
  exists o2 o3 rest,
    out (run D dbConfig BIND_OUT s) =
      EvCall (CGetConnection dbConfig) (Returns (VObj fields))
      :: EvCall (CMethod (VObj fields) "execute" [VStr package_spec]) (Throws e1)
      :: EvError e1
      :: EvCall (CMethod (VObj fields) "execute" [VStr package_body]) o2
      :: logged o2 ++
         EvCall (CMethod (VObj fields) "getDbObjectClass" [VStr "RECTEST.RECTYPE"]) o3
      :: rest.
Proof.
  intros H1 H2.
  rewrite (run_acquired D dbConfig BIND_OUT s d1 fields H1). cbv zeta.
  rewrite H2. cbn [fst snd logged app].
  do 3 eexists. reflexivity.
Qed.

(** ** A failed fetch of the class *)

(** C8. When [getDbObjectClass] throws on an acquired connection, whatever
    the two statements answered ([o1], [o2]) and whatever the [close]
    answers ([oc]): the error is logged, the connection is closed, and the
    driver is called for nothing else; in particular no instance is
    constructed, the procedure is never called, and there is one [close]. *)
Theorem class_fetch_failure_skips_calls
    (D : Driver) (dbConfig BIND_OUT : Value) (s : Frame D)
    (d1 d2 d3 d4 d5 : dstate D) (fields : list (string * Value))
    (o1 o2 oc : Outcome) (e : Value) :
  let conn := VObj fields in
  let c1 := CMethod conn "execute" [VStr package_spec] in
  let c2 := CMethod conn "execute" [VStr package_body] in
  let c3 := CMethod conn "getDbObjectClass" [VStr "RECTEST.RECTYPE"] in
  let close := CMethod conn "close" [] in
  respond D (ds s) (CGetConnection dbConfig) = (d1, Returns conn) ->
  respond D d1 c1 = (d2, o1) ->
  respond D d2 c2 = (d3, o2) ->
  respond D d3 c3 = (d4, Throws e) ->
  respond D d4 close = (d5, oc) ->
  out (run D dbConfig BIND_OUT s) =
    EvCall (CGetConnection dbConfig) (Returns conn)
    :: EvCall c1 o1 :: logged o1 ++
       EvCall c2 o2 :: logged o2 ++
       [EvCall c3 (Throws e); EvError e; EvCall close oc] ++ logged oc /\
  calls (out (run D dbConfig BIND_OUT s)) =
    [CGetConnection dbConfig; c1; c2; c3; close] /\
  filter is_close (calls (out (run D dbConfig BIND_OUT s))) = [close].
Proof.
  intros conn c1 c2 c3 close H0 H1 H2 H3 H4.
  assert (Hout : out (run D dbConfig BIND_OUT s) =
    EvCall (CGetConnection dbConfig) (Returns conn)
    :: EvCall c1 o1 :: logged o1 ++
       EvCall c2 o2 :: logged o2 ++
       [EvCall c3 (Throws e); EvError e; EvCall close oc] ++ logged oc).
  { rewrite (run_acquired D dbConfig BIND_OUT s d1 fields H0). cbv zeta.
    fold conn c1 c2 c3 close.
    rewrite H1. cbn [fst snd]. rewrite H2. cbn [fst snd]. rewrite H3.
    cbn [fst snd]. rewrite H4. reflexivity. }
  rewrite Hout. split; [reflexivity|].
  destruct o1, o2, oc; split; reflexivity.
Qed.

(** ** A failed close *)

(** C7. When the [close] throws: the call and the logging of its error are
    the last two events of the run, every error thrown before is in the log
    as it was thrown, and the run still completes normally. *)
Theorem close_failure_is_contained
    (D : Driver) (dbConfig BIND_OUT : Value) (s : Frame D) (conn ec : Value) :
  In (EvCall (CMethod conn "close" []) (Throws ec)) (out (run D dbConfig BIND_OUT s)) ->
  exists t0,
    out (run D dbConfig BIND_OUT s) =
      t0 ++ [EvCall (CMethod conn "close" []) (Throws ec); EvError ec] /\
    stderr t0 = raised t0 /\
    stderr (out (run D dbConfig BIND_OUT s)) = raised t0 ++ [ec] /\
    res (run D dbConfig BIND_OUT s) = Ok tt.
Proof.
  intros Hin.
  destruct (run_anatomy D dbConfig BIND_OUT s) as (t & oc & Ht & F & R & K).
  set (o := snd (respond D (ds s) (CGetConnection dbConfig))) in *.
  rewrite Ht in Hin |- *.
  exists (EvCall (CGetConnection dbConfig) o :: t).
  destruct Hin as [Hin|Hin]; [discriminate|].
  apply in_app_or in Hin. destruct Hin as [Hin|Hin].
  - exfalso. rewrite Forall_forall in F. apply F in Hin. simpl in Hin.
    destruct Hin as (_ & _ & Hin). discriminate.
  - unfold cleanup_events in Hin |- *.
    destruct (truthy (acquired o)); [|contradiction].
    destruct (is_object (acquired o)).
    + destruct Hin as [Hin|Hin].
      * injection Hin as Hc Ho. subst oc. rewrite Hc.
        change (?a :: t ++ ?u) with ((a :: t) ++ u).
        split; [reflexivity|]. rewrite stderr_app, R.
        repeat split; auto.
      * destruct oc; simpl in Hin; [contradiction|].
        destruct Hin as [Hin|[]]. discriminate.
    + destruct Hin as [Hin|[Hin|[]]]; discriminate.
Qed.

(** ** Initialisation of the client libraries *)

Arguments run D dbConfig BIND_OUT s : simpl never.

Section Init.

Variable D : Driver.
Variable host : Host.
Variable dbConfig : Value.
Variable BIND_OUT : Value.

Lemma module_init_run (s : Frame D) :
  module_init D host s =
  if client_dir_present host then
    let c := CInitOracleClient (VObj [("libDir", libPath host)]) in
    let a := respond D (ds s) c in
    mkRun (mkFrame (fst a) (connection s))
      [EvExistsSync (libPath host) true; EvCall c (snd a)]
      (match snd a with
       | Returns _ => Ok tt
       | Throws e => Throw e
       end)
  else
    mkRun s
      (if truthy (libPath host) then [EvExistsSync (libPath host) false] else [])
      (Ok tt).
Proof.
  unfold module_init, client_dir_present.
  destruct (truthy (libPath host)); cbn [andb].
  - rewrite bind_run. cbn [fs_exists res st out].
    destruct (fs_existsSync host (libPath host)).
    + rewrite bind_run. unfold call. cbn [res st out ret app].
      destruct (snd (respond D (ds s) _)); reflexivity.
    + destruct s; reflexivity.
  - rewrite bind_run. destruct s; reflexivity.
Qed.

Lemma run_no_init (s : Frame D) :
  filter is_init (calls (out (run D dbConfig BIND_OUT s))) = [].
Proof.
  destruct (run_anatomy D dbConfig BIND_OUT s) as (t & oc & Ht & F & _ & _).
  rewrite Ht.
  change (?e :: t ++ ?u) with ([e] ++ t ++ u).
  rewrite !calls_app, !filter_app, (mid_event_no_init t F), cleanup_events_no_init.
  reflexivity.
Qed.

(** The script is the module-level code followed, unless it threw, by the
    run. *)
Lemma script_out (s : Frame D) :
  out (script D host dbConfig BIND_OUT s) =
  out (module_init D host s) ++
  match res (module_init D host s) with
  | Ok _ => out (run D dbConfig BIND_OUT (st (module_init D host s)))
  | Throw _ => []
  end.
Proof. unfold script. apply bind_out. Qed.

(** X5. Nothing at module level catches a throw of [initOracleClient]:
    the script ends there with that error, before [run] is called, so that
    no connection is asked for. *)
Lemma init_failure_ends_script (s : Frame D) (d' : dstate D) (e : Value) :
  client_dir_present host = true ->
  respond D (ds s) (CInitOracleClient (VObj [("libDir", libPath host)])) =
    (d', Throws e) ->
  out (script D host dbConfig BIND_OUT s) =
    [EvExistsSync (libPath host) true;
     EvCall (CInitOracleClient (VObj [("libDir", libPath host)])) (Throws e)] /\
  res (script D host dbConfig BIND_OUT s) = Throw e.
Proof.
  intros Hp He. unfold script.
  rewrite bind_out, bind_res, module_init_run, Hp. cbv zeta.
  rewrite He. cbn [fst snd out res]. auto.
Qed.

(** When the module-level code completes, so does the script. *)
Lemma script_completes (s : Frame D) :
  res (module_init D host s) = Ok tt ->
  res (script D host dbConfig BIND_OUT s) = Ok tt.
Proof.
  intros Hm. unfold script. rewrite bind_res, Hm.
  destruct (run_anatomy D dbConfig BIND_OUT (st (module_init D host s)))
    as (t & oc & _ & _ & _ & K).
  exact K.
Qed.

End Init.

Lemma append_not_empty (a b : string) : b <> "" -> (a ++ b =? "") = false.
Proof.
  intros Hb. destruct a as [|c a]; simpl.
  - now apply String.eqb_neq.
  - reflexivity.
Qed.

(** On Windows and macOS [libPath] is a string that is not empty. *)
Lemma client_dir_present_iff (host : Host) :
  client_dir_present host = true <->
  (platform host = "win32" /\
   existsSync host "C:\oracle\instantclient_19_12" = true) \/
  (platform host = "darwin" /\
   existsSync host
     (env_to_string (env_HOME host) ++ "/Downloads/instantclient_19_8") = true).
Proof.
  unfold client_dir_present, libPath.
  destruct (platform host =? "win32") eqn:W.
  - apply String.eqb_eq in W. simpl. split; [auto|].
    intros [[_ H]|[H _]]; [assumption|]. rewrite W in H. discriminate.
  - apply String.eqb_neq in W.
    destruct (platform host =? "darwin") eqn:M.
    + apply String.eqb_eq in M. cbn [truthy fs_existsSync].
      rewrite append_not_empty by discriminate. simpl. split; [auto|].
      intros [[H _]|[_ H]]; [contradiction|assumption].
    + apply String.eqb_neq in M. simpl. split; [discriminate|].
      intros [[H _]|[H _]]; contradiction.
Qed.

(** C10. In the trace of the whole script, the calls of [initOracleClient]
    are: one call with the directory of the platform when the platform is
    Windows or macOS and that directory exists, none otherwise; and no
    driver call comes before it, so that it is made while the module is
    loaded, before [run] asks for a connection. *)
Theorem init_client_once_at_load
    (D : Driver) (host : Host) (dbConfig BIND_OUT : Value) (s : Frame D) :
  let t := out (script D host dbConfig BIND_OUT s) in
  filter is_init (calls t) =
    (if client_dir_present host
     then [CInitOracleClient (VObj [("libDir", libPath host)])]
     else []) /\
  (client_dir_present host = true <->
   (platform host = "win32" /\
    existsSync host "C:\oracle\instantclient_19_12" = true) \/
   (platform host = "darwin" /\
    existsSync host
      (env_to_string (env_HOME host) ++ "/Downloads/instantclient_19_8") = true)) /\
  (forall t1 c o t2,
     t = t1 ++ EvCall c o :: t2 -> is_init c = true ->
     t1 = [EvExistsSync (libPath host) true]).
Proof.
  intros t. subst t. rewrite script_out, module_init_run.
  split; [|split; [apply client_dir_present_iff|]].
  - destruct (client_dir_present host); cbv zeta; cbn [out res st].
    + rewrite calls_app, filter_app. cbn [calls flat_map app filter is_init].
      destruct (snd (respond D (ds s) _)).
      * now rewrite run_no_init.
      * reflexivity.
    + rewrite calls_app, filter_app, run_no_init.
      destruct (truthy (libPath host)); reflexivity.
  - intros t1 c o t2 Heq Hc.
    assert (Hno : forall u1 u2 s', out (run D dbConfig BIND_OUT s') <> u1 ++ EvCall c o :: u2).
    { intros u1 u2 s' Hu. pose proof (run_no_init D dbConfig BIND_OUT s') as Hn.
      rewrite Hu, calls_app, filter_app in Hn. simpl in Hn. rewrite Hc in Hn.
      apply app_eq_nil in Hn. destruct Hn as [_ Hn]. discriminate. }
    assert (Hrun : exists R, (forall u1 u2, R <> u1 ++ EvCall c o :: u2) /\
              out (module_init D host s) ++
              match res (module_init D host s) with
              | Ok _ => R
              | Throw _ => []
              end = t1 ++ EvCall c o :: t2).
    { eexists. split; [|rewrite module_init_run; exact Heq]. intros u1 u2.
      apply Hno. }
    clear Heq Hno. destruct Hrun as (R & Hno & Heq).
    rewrite module_init_run in Heq.
    destruct (client_dir_present host); cbv zeta in Heq; cbn [out res st] in Heq.
    + destruct t1 as [|x [|y t1]]; simpl in Heq.
      * discriminate.
      * injection Heq as Hx _. now subst x.
      * exfalso. injection Heq as _ Hy Hrest.
        destruct (snd (respond D (ds s) _)) in Hrest.
        -- now apply Hno in Hrest.
        -- now destruct t1.
    + exfalso. destruct (truthy (libPath host)); simpl in Heq.
      * destruct t1 as [|x t1]; simpl in Heq; [discriminate|].
        injection Heq as _ Hrest. now apply Hno in Hrest.
      * now apply Hno in Heq.
Qed.

(** ** Runs against the mock *)

Lemma value_eqb_refl : forall v, value_eqb v v = true.
Proof.
  fix IH 1. intros [| |b|z|s|fields|elems]; simpl; try reflexivity.
  - apply Bool.eqb_reflx.
  - apply Z.eqb_refl.
  - apply String.eqb_refl.
  - induction fields as [|[k v] rest IHrest]; [reflexivity|].
    rewrite String.eqb_refl, IH, IHrest. reflexivity.
  - induction elems as [|v rest IHrest]; [reflexivity|].
    rewrite IH, IHrest. reflexivity.
Qed.

Section MockRuns.

Variable bo : Value.
Variable proc : rectype -> rectype.

Lemma is_out_bind_out_bind : is_out_bind bo (out_bind bo mock_class) = true.
Proof. apply value_eqb_refl. Qed.

Lemma mock_execute (v : Value) (r : rectype) :
  in_record v = Some r ->
  mock_answer bo proc
    (CMethod mock_connection "execute" [VStr plsql; instance_binds bo mock_class v]) =
  Returns (VObj [("outBinds", out_binds proc r)]).
Proof.
  intros H. unfold mock_answer, mock_method, remote_call, instance_binds.
  cbn [lookup String.eqb Ascii.eqb Bool.eqb value_eqb mock_connection andb].
  rewrite H, is_out_bind_out_bind. reflexivity.
Qed.

(** Whatever carries the record [r] as [inbv], the call binds [proc r] to
    [outbv], and that is what gets printed. *)
Lemma execute_and_print_mock (v : Value) (r : rectype) :
  in_record v = Some r ->
  execute_and_print (mock bo proc) (instance_binds bo mock_class v) (connected bo proc) =
  mkRun (connected bo proc)
    [EvCall (CMethod mock_connection "execute"
               [VStr plsql; instance_binds bo mock_class v])
       (Returns (VObj [("outBinds", out_binds proc r)]));
     EvLog (of_record (proc r))]
    (Ok tt).
Proof.
  intros H.
  unfold execute_and_print, bind, get_connection, invoke, call.
  cbn [connected connection ds st res out is_object mock_connection respond mock fst snd].
  rewrite (mock_execute _ _ H). reflexivity.
Qed.

Lemma bind_instance_mock (n : string) (p : Z) :
  let r := {| name := n; pos := p |} in
  bind_instance (mock bo proc) bo mock_class n p (connected bo proc) =
  mkRun (connected bo proc)
    [EvLog (VStr "Using the constructor to create an object:");
     EvCall (CNew mock_class [record_literal n p]) (Returns (of_record r));
     EvCall (CMethod mock_connection "execute"
               [VStr plsql; instance_binds bo mock_class (of_record r)])
       (Returns (VObj [("outBinds", out_binds proc r)]));
     EvLog (of_record (proc r))]
    (Ok tt).
Proof.
  intros r. unfold bind_instance.
  rewrite bind_run. cbn [console_log res st out].
  rewrite bind_run. unfold construct, call.
  cbn [is_object mock_class respond mock fst snd ds connected res st out].
  change (mock_answer bo proc (CNew mock_class [record_literal n p]))
    with (Returns (of_record r)).
  cbn iota. cbn [res st out].
  change (mkFrame (D := mock bo proc) tt (connection (connected bo proc)))
    with (connected bo proc).
  rewrite (execute_and_print_mock (of_record r) r eq_refl).
  reflexivity.
Qed.

Lemma bind_values_mock (n : string) (p : Z) :
  let r := {| name := n; pos := p |} in
  bind_values (mock bo proc) bo mock_class n p (connected bo proc) =
  mkRun (connected bo proc)
    [EvLog (VStr (newline ++ "Binding the record values directly:"));
     EvCall (CMethod mock_connection "execute"
               [VStr plsql; values_binds bo mock_class n p])
       (Returns (VObj [("outBinds", out_binds proc r)]));
     EvLog (of_record (proc r))]
    (Ok tt).
Proof.
  intros r. unfold bind_values.
  rewrite bind_run. cbn [console_log res st out].
  change (values_binds bo mock_class n p)
    with (instance_binds bo mock_class
            (VObj [("type", mock_class); ("val", record_literal n p)])).
  rewrite (execute_and_print_mock
             (VObj [("type", mock_class); ("val", record_literal n p)]) r eq_refl).
  reflexivity.
Qed.

Lemma bind_named_mock (n : string) (p : Z) :
  let r := {| name := n; pos := p |} in
  bind_named (mock bo proc) bo mock_class n p (connected bo proc) =
  mkRun (connected bo proc)
    [EvCall (CMethod mock_connection "execute"
               [VStr plsql; named_binds bo mock_class n p])
       (Returns (VObj [("outBinds", out_binds proc r)]));
     EvLog (of_record (proc r))]
    (Ok tt).
Proof.
  intros r. unfold bind_named.
  apply (execute_and_print_mock
           (VObj [("type", VStr "RECTEST.RECTYPE"); ("val", record_literal n p)])
           r eq_refl).
Qed.

Lemma remote_rows_many (rows : list (string * Z)) :
  remote_rows proc
    (map (fun r => VObj [("inbv", record_literal (fst r) (snd r))]) rows) =
  Some (map (fun r => out_binds proc (row_record r)) rows).
Proof.
  induction rows as [|[n p] rows IH]; [reflexivity|].
  cbn [map remote_rows]. rewrite IH. reflexivity.
Qed.

Lemma mock_execute_many (rows : list (string * Z)) :
  mock_answer bo proc
    (CMethod mock_connection "executeMany"
       [VStr plsql; many_binds rows; many_options bo mock_class]) =
  Returns (VObj [("outBinds",
                  VArr (map (fun r => out_binds proc (row_record r)) rows))]).
Proof.
  unfold mock_answer, mock_method, remote_call_many, many_binds, many_options.
  cbn [lookup String.eqb Ascii.eqb Bool.eqb value_eqb mock_connection andb].
  rewrite is_out_bind_out_bind, remote_rows_many. reflexivity.
Qed.

Lemma print_loop_mock (rs : list rectype) (s : Frame (mock bo proc)) :
  for_each (map (out_binds proc) rs)
    (fun b => outbv <- prop b "outbv" ;; console_log outbv) s =
  mkRun s (map (fun r => EvLog (of_record (proc r))) rs) (Ok tt).
Proof.
  revert s. induction rs as [|r rs IH]; intros s; [reflexivity|].
  cbn [map for_each]. rewrite bind_run.
  change ((outbv <- prop (out_binds proc r) "outbv" ;; console_log outbv) s)
    with (mkRun s [EvLog (of_record (proc r))] (Ok tt)).
  cbn [res st out]. rewrite IH. reflexivity.
Qed.

Lemma bind_many_mock (rows : list (string * Z)) :
  bind_many (mock bo proc) bo mock_class rows (connected bo proc) =
  mkRun (connected bo proc)
    (EvLog (VStr (newline ++ "Example with executeMany():"))
     :: EvCall (CMethod mock_connection "executeMany"
                  [VStr plsql; many_binds rows; many_options bo mock_class])
          (Returns (VObj [("outBinds",
                           VArr (map (fun r => out_binds proc (row_record r)) rows))]))
     :: map (fun r => EvLog (of_record (proc (row_record r)))) rows)
    (Ok tt).
Proof.
  unfold bind_many. rewrite bind_run. cbn [console_log res st out]. cbv zeta.
  rewrite bind_run. cbn [get_connection res st out].
  rewrite bind_run. unfold invoke, call.
  cbn [is_object connected connection mock_connection respond mock fst snd ds].
  rewrite mock_execute_many. cbn [res st out].
  rewrite bind_run. cbn [prop get_prop lookup String.eqb Ascii.eqb Bool.eqb lift ret res st out].
  unfold for_of. rewrite bind_run. cbn [iterate lift ret res st out].
  rewrite <- (map_map row_record (out_binds proc)), print_loop_mock.
  cbn [res st out app]. rewrite !map_map. reflexivity.
Qed.

Lemma call_sequences_mock :
  call_sequences (mock bo proc) bo mock_class (connected bo proc) =
  mkRun (connected bo proc)
    (out (bind_instance (mock bo proc) bo mock_class "Ship" 12 (connected bo proc)) ++
     out (bind_values (mock bo proc) bo mock_class "Plane" 34 (connected bo proc)) ++
     out (bind_named (mock bo proc) bo mock_class "Car" 56 (connected bo proc)) ++
     out (bind_many (mock bo proc) bo mock_class [("Train", 78%Z); ("Bike", 83%Z)]
            (connected bo proc)))
    (Ok tt).
Proof.
  unfold call_sequences.
  rewrite bind_run, bind_instance_mock. cbv zeta. cbn [res st out].
  rewrite bind_run, bind_values_mock. cbv zeta. cbn [res st out].
  rewrite bind_run, bind_named_mock. cbv zeta. cbn [res st out].
  rewrite bind_many_mock. reflexivity.
Qed.
End MockRuns.

Lemma of_record_myproc (n : string) (p : Z) :
  of_record (myproc {| name := n; pos := p |}) = record_literal n (2 * p).
Proof.
  unfold of_record, myproc, record_literal. cbn [name pos].
  now rewrite Z.mul_comm.
Qed.

Lemma map_records (rows : list (string * Z)) :
  map (fun r => of_record (myproc (row_record r))) rows =
  map (fun r => record_literal (fst r) (2 * snd r)) rows.
Proof.
  apply map_ext. intros [n p]. apply of_record_myproc.
Qed.

Lemma bound_outputs_logs {A} (f : A -> Value) (l : list A) :
  bound_outputs (map (fun a => EvLog (f a)) l) = [].
Proof. induction l as [|a l IH]; [reflexivity | exact IH]. Qed.

(** ** The contracts on the mocked driver *)

(** C1. Against the mock that runs [myproc], each of the four ways of
    binding the record [{ NAME: n, POS: p }] gets bound to [outbv] a record
    with the same [NAME] and with [POS] doubled; for the batched call, one
    such record for each of the rows. *)
Theorem remote_procedure_doubles_pos
    (bo : Value) (n : string) (p : Z) (rows : list (string * Z)) :
  bound_outputs
    (out (bind_instance (mock bo myproc) bo mock_class n p (connected bo myproc))) =
    [record_literal n (2 * p)] /\
  bound_outputs
    (out (bind_values (mock bo myproc) bo mock_class n p (connected bo myproc))) =
    [record_literal n (2 * p)] /\
  bound_outputs
    (out (bind_named (mock bo myproc) bo mock_class n p (connected bo myproc))) =
    [record_literal n (2 * p)] /\
  bound_outputs
    (out (bind_many (mock bo myproc) bo mock_class rows (connected bo myproc))) =
    map (fun r => record_literal (fst r) (2 * snd r)) rows.
Proof.
  rewrite bind_instance_mock, bind_values_mock, bind_named_mock, bind_many_mock.
  cbv zeta.
  cbn [out bound_outputs flat_map outbv_of out_binds lookup
       String.eqb Ascii.eqb Bool.eqb app].
  rewrite of_record_myproc. repeat split.
  change (flat_map _ (map ?f rows)) with (bound_outputs (map f rows)).
  rewrite bound_outputs_logs, app_nil_r, map_map. cbn [lookup String.eqb Ascii.eqb Bool.eqb].
  apply map_records.
Qed.

(** C2. Against the mock that runs [myproc], the batched call for Train
    (78) and Bike (83) gets Train (156) and Bike (166) bound, in that
    order; and for any rows, [result.outBinds] has one element for each
    row, the i-th holding the output for the i-th row. *)
Theorem batched_outputs_follow_rows (bo : Value) :
  bound_outputs
    (out (bind_many (mock bo myproc) bo mock_class
            [("Train", 78%Z); ("Bike", 83%Z)] (connected bo myproc))) =
    [record_literal "Train" 156; record_literal "Bike" 166] /\
  forall rows : list (string * Z),
  exists outs : list Value,
    In (EvCall (CMethod mock_connection "executeMany"
                  [VStr plsql; many_binds rows; many_options bo mock_class])
          (Returns (VObj [("outBinds", VArr outs)])))
       (out (bind_many (mock bo myproc) bo mock_class rows (connected bo myproc))) /\
    length outs = length rows /\
    forall i n p,
      nth_error rows i = Some (n, p) ->
      nth_error outs i = Some (VObj [("outbv", record_literal n (2 * p))]).
Proof.
  split.
  - rewrite bind_many_mock. reflexivity.
  - intros rows. rewrite bind_many_mock. cbn [out].
    exists (map (fun r => out_binds myproc (row_record r)) rows).
    split; [right; left; reflexivity|].
    split; [apply length_map|].
    intros i n p H. rewrite nth_error_map, H. cbn [option_map].
    unfold out_binds, row_record. cbn [fst snd]. now rewrite of_record_myproc.
Qed.

Lemma mock_statement (bo : Value) (proc : rectype -> rectype) (sql : string) :
  mock_answer bo proc (CMethod mock_connection "execute" [VStr sql]) =
  Returns (VObj []).
Proof. reflexivity. Qed.

Lemma mock_get_class (bo : Value) (proc : rectype -> rectype) :
  mock_answer bo proc
    (CMethod mock_connection "getDbObjectClass" [VStr "RECTEST.RECTYPE"]) =
  Returns mock_class.
Proof. reflexivity. Qed.

(** Against the mock, whatever procedure the database runs, no call fails,
    and [console.log] writes the three labels and the five outputs. *)
Lemma mock_run_prints_in_order
    (bo dbConfig : Value) (proc : rectype -> rectype) (s : Frame (mock bo proc)) :
  raised (out (run (mock bo proc) dbConfig bo s)) = [] /\
  stdout (out (run (mock bo proc) dbConfig bo s)) =
    [VStr "Using the constructor to create an object:";
     of_record (proc {| name := "Ship"; pos := 12 |});
     VStr (newline ++ "Binding the record values directly:");
     of_record (proc {| name := "Plane"; pos := 34 |});
     of_record (proc {| name := "Car"; pos := 56 |});
     VStr (newline ++ "Example with executeMany():");
     of_record (proc {| name := "Train"; pos := 78 |});
     of_record (proc {| name := "Bike"; pos := 83 |})].
Proof.
  destruct s as [[] c0].
  assert (H : out (run (mock bo proc) dbConfig bo (mkFrame (D := mock bo proc) tt c0)) =
    EvCall (CGetConnection dbConfig) (Returns mock_connection)
    :: EvCall (CMethod mock_connection "execute" [VStr package_spec]) (Returns (VObj []))
    :: EvCall (CMethod mock_connection "execute" [VStr package_body]) (Returns (VObj []))
    :: EvCall (CMethod mock_connection "getDbObjectClass" [VStr "RECTEST.RECTYPE"])
         (Returns mock_class)
    :: out (call_sequences (mock bo proc) bo mock_class (connected bo proc)) ++
       [EvCall (CMethod mock_connection "close" []) (Returns VUndefined)]).
  { rewrite (run_acquired (mock bo proc) dbConfig bo
               (mkFrame (D := mock bo proc) tt c0) tt
               [("mock", VStr "Connection")] eq_refl).
    cbv zeta. cbn [respond mock fst snd].
    change (VObj [("mock", VStr "Connection")]) with mock_connection.
    rewrite !mock_statement, mock_get_class.
    cbn [logged app]. cbv zeta.
    change (mkFrame (D := mock bo proc) tt mock_connection) with (connected bo proc).
    rewrite call_sequences_mock. cbn [res out st].
    reflexivity. }
  rewrite H. rewrite call_sequences_mock.
  rewrite bind_instance_mock, bind_values_mock, bind_named_mock, bind_many_mock.
  cbv zeta. cbn [out]. repeat split.
Qed.

(** ** Runs on which the calls return *)

Section Returns.

Variable D : Driver.
Variable BIND_OUT : Value.

Lemma execute_and_print_returns (s : Frame D) (binds : Value)
    (d' : dstate D) (result v : Value) :
  is_object (connection s) = true ->
  respond D (ds s) (CMethod (connection s) "execute" [VStr plsql; binds]) =
    (d', Returns result) ->
  single_outbv result = Ok v ->
  execute_and_print D binds s =
  mkRun (mkFrame d' (connection s))
    [EvCall (CMethod (connection s) "execute" [VStr plsql; binds]) (Returns result);
     EvLog v]
    (Ok tt).
Proof.
  intros Hobj Hr Hv. unfold execute_and_print.
  rewrite bind_run. cbn [get_connection res st out].
  rewrite bind_run. unfold invoke. rewrite Hobj. unfold call. rewrite Hr.
  cbn [fst snd res st out].
  unfold single_outbv in Hv. unfold prop.
  rewrite bind_run.
  destruct (get_prop result "outBinds") as [ob|e]; [|discriminate].
  cbn [lift ret res st out]. rewrite bind_run, Hv. reflexivity.
Qed.

Lemma print_loop_returns (bs vs : list Value) (s : Frame D) :
  each_outbv bs = Ok vs ->
  for_each bs (fun b => outbv <- prop b "outbv" ;; console_log outbv) s =
  mkRun s (map EvLog vs) (Ok tt).
Proof.
  revert vs. induction bs as [|b bs IH]; intros vs H.
  - injection H as <-. reflexivity.
  - cbn [each_outbv] in H.
    destruct (get_prop b "outbv") as [v|e] eqn:Hb; [|discriminate].
    destruct (each_outbv bs) as [vs'|e]; [|discriminate].
    injection H as <-. cbn [for_each].
    assert (Hbody : (outbv <- prop b "outbv" ;; console_log outbv) s =
                    mkRun s [EvLog v] (Ok tt)).
    { rewrite bind_run. unfold prop. rewrite Hb. reflexivity. }
    rewrite bind_run, Hbody. cbn [res st out]. rewrite (IH vs' eq_refl).
    reflexivity.
Qed.

Lemma bind_many_returns (s : Frame D) (cls : Value) (rows : list (string * Z))
    (d' : dstate D) (result : Value) (vs : list Value) :
  is_object (connection s) = true ->
  respond D (ds s)
    (CMethod (connection s) "executeMany"
       [VStr plsql; many_binds rows; many_options BIND_OUT cls]) =
    (d', Returns result) ->
  batch_outbv result = Ok vs ->
  bind_many D BIND_OUT cls rows s =
  mkRun (mkFrame d' (connection s))
    (EvLog (VStr (newline ++ "Example with executeMany():"))
     :: EvCall (CMethod (connection s) "executeMany"
                  [VStr plsql; many_binds rows; many_options BIND_OUT cls])
          (Returns result)
     :: map EvLog vs)
    (Ok tt).
Proof.
  intros Hobj Hr Hv. unfold bind_many.
  rewrite bind_run. cbn [console_log res st out]. cbv zeta.
  rewrite bind_run. cbn [get_connection res st out].
  rewrite bind_run. unfold invoke. rewrite Hobj. unfold call. rewrite Hr.
  cbn [fst snd res st out].
  unfold batch_outbv in Hv. unfold prop, for_of.
  rewrite bind_run.
  destruct (get_prop result "outBinds") as [ob|e]; [|discriminate].
  cbn [lift ret res st out]. rewrite bind_run.
  destruct (iterate ob) as [bs|e]; [|discriminate].
  cbn [lift ret res st out]. rewrite (print_loop_returns bs vs _ Hv).
  reflexivity.
Qed.


Lemma bind_instance_returns (s : Frame D) (cfields : list (string * Value))
    (n : string) (p : Z) (d' d'' : dstate D) (obj result v : Value) :
  is_object (connection s) = true ->
  respond D (ds s) (CNew (VObj cfields) [record_literal n p]) = (d', Returns obj) ->
  respond D d'
    (CMethod (connection s) "execute"
       [VStr plsql; instance_binds BIND_OUT (VObj cfields) obj]) =
    (d'', Returns result) ->
  single_outbv result = Ok v ->
  bind_instance D BIND_OUT (VObj cfields) n p s =
  mkRun (mkFrame d'' (connection s))
    [EvLog (VStr "Using the constructor to create an object:");
     EvCall (CNew (VObj cfields) [record_literal n p]) (Returns obj);
     EvCall (CMethod (connection s) "execute"
               [VStr plsql; instance_binds BIND_OUT (VObj cfields) obj])
       (Returns result);
     EvLog v]
    (Ok tt).
Proof.
  intros Hobj Hn Hr Hv. unfold bind_instance.
  rewrite bind_run. cbn [console_log res st out].
  rewrite bind_run. unfold construct. cbn [is_object]. unfold call. rewrite Hn.
  cbn [fst snd res st out].
  rewrite (execute_and_print_returns (mkFrame d' (connection s)) _ d'' result v
             Hobj Hr Hv).
  reflexivity.
Qed.

Lemma bind_values_returns (s : Frame D) (cls : Value)
    (n : string) (p : Z) (d' : dstate D) (result v : Value) :
  is_object (connection s) = true ->
  respond D (ds s)
    (CMethod (connection s) "execute" [VStr plsql; values_binds BIND_OUT cls n p]) =
    (d', Returns result) ->
  single_outbv result = Ok v ->
  bind_values D BIND_OUT cls n p s =
  mkRun (mkFrame d' (connection s))
    [EvLog (VStr (newline ++ "Binding the record values directly:"));
     EvCall (CMethod (connection s) "execute"
               [VStr plsql; values_binds BIND_OUT cls n p])
       (Returns result);
     EvLog v]
    (Ok tt).
Proof.
  intros Hobj Hr Hv. unfold bind_values.
  rewrite bind_run. cbn [console_log res st out].
  rewrite (execute_and_print_returns _ _ d' result v Hobj Hr Hv).
  reflexivity.
Qed.

Lemma bind_named_returns (s : Frame D) (cls : Value)
    (n : string) (p : Z) (d' : dstate D) (result v : Value) :
  is_object (connection s) = true ->
  respond D (ds s)
    (CMethod (connection s) "execute" [VStr plsql; named_binds BIND_OUT cls n p]) =
    (d', Returns result) ->
  single_outbv result = Ok v ->
  bind_named D BIND_OUT cls n p s =
  mkRun (mkFrame d' (connection s))
    [EvCall (CMethod (connection s) "execute"
               [VStr plsql; named_binds BIND_OUT cls n p])
       (Returns result);
     EvLog v]
    (Ok tt).
Proof.
  intros Hobj Hr Hv. unfold bind_named.
  apply (execute_and_print_returns _ _ d' result v Hobj Hr Hv).
Qed.

End Returns.

Lemma stdout_cleanup_events (conn : Value) (oc : Outcome) :
  stdout (cleanup_events conn oc) = [].
Proof.
  unfold cleanup_events.
  destruct (truthy conn), (is_object conn), oc; reflexivity.
Qed.

(** C9. On any run on which the connection, the class, the instance and
    the four calls of the procedure are answered with a result ([r1] to
    [r4], the batched one carrying one output for each of its two rows),
    whatever the two statements answer, [console.log] writes the three
    labels and exactly five outputs: the one bound by the call for Ship,
    then Plane, then Car, then the two of the batched call for Train and
    Bike in the order of [result.outBinds]. *)
Theorem records_printed_in_order
    (D : Driver) (dbConfig BIND_OUT : Value) (s : Frame D)
    (d1 d2 d3 d4 d5 d6 d7 d8 d9 : dstate D)
    (fields cfields : list (string * Value)) (o1 o2 : Outcome)
    (obj r1 r2 r3 r4 v1 v2 v3 v4 v5 : Value) :
  respond D (ds s) (CGetConnection dbConfig) = (d1, Returns (VObj fields)) ->
  respond D d1 (CMethod (VObj fields) "execute" [VStr package_spec]) = (d2, o1) ->
  respond D d2 (CMethod (VObj fields) "execute" [VStr package_body]) = (d3, o2) ->
  respond D d3 (CMethod (VObj fields) "getDbObjectClass" [VStr "RECTEST.RECTYPE"]) =
    (d4, Returns (VObj cfields)) ->
  respond D d4 (CNew (VObj cfields) [record_literal "Ship" 12]) = (d5, Returns obj) ->
  respond D d5
    (CMethod (VObj fields) "execute"
       [VStr plsql; instance_binds BIND_OUT (VObj cfields) obj]) = (d6, Returns r1) ->
  respond D d6
    (CMethod (VObj fields) "execute"
       [VStr plsql; values_binds BIND_OUT (VObj cfields) "Plane" 34]) = (d7, Returns r2) ->
  respond D d7
    (CMethod (VObj fields) "execute"
       [VStr plsql; named_binds BIND_OUT (VObj cfields) "Car" 56]) = (d8, Returns r3) ->
  respond D d8
    (CMethod (VObj fields) "executeMany"
       [VStr plsql; many_binds [("Train", 78%Z); ("Bike", 83%Z)];
        many_options BIND_OUT (VObj cfields)]) = (d9, Returns r4) ->
  single_outbv r1 = Ok v1 ->
  single_outbv r2 = Ok v2 ->
  single_outbv r3 = Ok v3 ->
  batch_outbv r4 = Ok [v4; v5] ->
  stdout (out (run D dbConfig BIND_OUT s)) =
    [VStr "Using the constructor to create an object:"; v1;
     VStr (newline ++ "Binding the record values directly:"); v2;
     v3;
     VStr (newline ++ "Example with executeMany():"); v4; v5].
Proof.
  intros H0 H1 H2 H3 H4 H5 H6 H7 H8 V1 V2 V3 V4.
  rewrite (run_acquired D dbConfig BIND_OUT s d1 fields H0). cbv zeta.
  rewrite H1. cbn [fst snd]. rewrite H2. cbn [fst snd]. rewrite H3. cbn [fst snd].
  unfold call_sequences.
  rewrite bind_run,
    (bind_instance_returns D BIND_OUT (mkFrame d4 (VObj fields)) cfields "Ship" 12
       d5 d6 obj r1 v1 eq_refl H4 H5 V1).
  cbn [res st out connection].
  rewrite bind_run,
    (bind_values_returns D BIND_OUT (mkFrame d6 (VObj fields)) (VObj cfields) "Plane" 34 d7 r2 v2 eq_refl H6 V2).
  cbn [res st out connection].
  rewrite bind_run,
    (bind_named_returns D BIND_OUT (mkFrame d7 (VObj fields)) (VObj cfields) "Car" 56 d8 r3 v3 eq_refl H7 V3).
  cbn [res st out connection].
  rewrite (bind_many_returns D BIND_OUT (mkFrame d8 (VObj fields)) (VObj cfields) _ d9 r4 [v4; v5]
             eq_refl H8 V4).
  cbn [res st out connection ds map].
  change (?a :: ?b :: ?l ++ ?c :: ?l' ++ ?e :: ?rest)%list
    with ([a; b] ++ l ++ [c] ++ l' ++ [e] ++ rest)%list.
  rewrite !stdout_app, stdout_cleanup_events.
  destruct o1, o2; reflexivity.
Qed.

(** ** The theorems at work on concrete drivers *)

(** The mock hands over a connection: it is closed once. *)
Lemma connection_closed_exactly_once_witness :
  respond sample_mock tt (CGetConnection sample_config) =
    (tt, Returns mock_connection) /\
  filter is_close
    (calls (out (run sample_mock sample_config sample_bind_out (start (D := sample_mock) tt)))) =
    [CMethod mock_connection "close" []].
Proof.
  split; [reflexivity|].
  apply (connection_closed_exactly_once sample_mock sample_config sample_bind_out
           (start (D := sample_mock) tt) tt [("mock", VStr "Connection")]).
  reflexivity.
Defined.

(** The mock refusing the connection. *)
Lemma failed_connection_stops_everything_witness :
  respond no_connection tt (CGetConnection sample_config) = (tt, Throws mock_error) /\
  out (run no_connection sample_config sample_bind_out (start (D := no_connection) tt)) =
    [EvCall (CGetConnection sample_config) (Throws mock_error); EvError mock_error] /\
  res (run no_connection sample_config sample_bind_out (start (D := no_connection) tt)) =
    Ok tt.
Proof.
  split; [reflexivity|].
  apply (failed_connection_stops_everything no_connection sample_config sample_bind_out
           (start (D := no_connection) tt) tt mock_error).
  reflexivity.
Defined.

(** The mock refusing the package specification. *)
Lemma package_body_attempted_after_failure_witness :
  respond no_package_spec tt (CGetConnection sample_config) =
    (tt, Returns mock_connection) /\
  respond no_package_spec tt (CMethod mock_connection "execute" [VStr package_spec]) =
    (tt, Throws mock_error) /\
  exists o2 o3 rest,
    out (run no_package_spec sample_config sample_bind_out
           (start (D := no_package_spec) tt)) =
      EvCall (CGetConnection sample_config) (Returns mock_connection)
      :: EvCall (CMethod mock_connection "execute" [VStr package_spec]) (Throws mock_error)
      :: EvError mock_error
      :: EvCall (CMethod mock_connection "execute" [VStr package_body]) o2
      :: logged o2 ++
         EvCall (CMethod mock_connection "getDbObjectClass" [VStr "RECTEST.RECTYPE"]) o3
      :: rest.
Proof.
  split; [reflexivity|]. split; [reflexivity|].
  apply (package_body_attempted_after_failure no_package_spec sample_config
           sample_bind_out (start (D := no_package_spec) tt) tt tt
           [("mock", VStr "Connection")] mock_error); reflexivity.
Defined.

(** The mock refusing the class. *)
Lemma class_fetch_failure_skips_calls_witness :
  let s := start (D := no_class) tt in
  let c1 := CMethod mock_connection "execute" [VStr package_spec] in
  let c2 := CMethod mock_connection "execute" [VStr package_body] in
  let c3 := CMethod mock_connection "getDbObjectClass" [VStr "RECTEST.RECTYPE"] in
  let close := CMethod mock_connection "close" [] in
  (respond no_class tt (CGetConnection sample_config) = (tt, Returns mock_connection) /\
   respond no_class tt c1 = (tt, Returns (VObj [])) /\
   respond no_class tt c2 = (tt, Returns (VObj [])) /\
   respond no_class tt c3 = (tt, Throws mock_error) /\
   respond no_class tt close = (tt, Returns VUndefined)) /\
  out (run no_class sample_config sample_bind_out s) =
    [EvCall (CGetConnection sample_config) (Returns mock_connection);
     EvCall c1 (Returns (VObj [])); EvCall c2 (Returns (VObj []));
     EvCall c3 (Throws mock_error); EvError mock_error;
     EvCall close (Returns VUndefined)] /\
  calls (out (run no_class sample_config sample_bind_out s)) =
    [CGetConnection sample_config; c1; c2; c3; close] /\
  filter is_close (calls (out (run no_class sample_config sample_bind_out s))) = [close].
Proof.
  intros s c1 c2 c3 close.
  split; [repeat split|].
  apply (class_fetch_failure_skips_calls no_class sample_config sample_bind_out s
           tt tt tt tt tt [("mock", VStr "Connection")]
           (Returns (VObj [])) (Returns (VObj [])) (Returns VUndefined) mock_error);
    reflexivity.
Defined.

(** The mock refusing the close. *)
Lemma close_failure_is_contained_witness :
  let r := run no_close sample_config sample_bind_out (start (D := no_close) tt) in
  In (EvCall (CMethod mock_connection "close" []) (Throws mock_error)) (out r) /\
  exists t0,
    out r = t0 ++ [EvCall (CMethod mock_connection "close" []) (Throws mock_error);
                   EvError mock_error] /\
    stderr t0 = raised t0 /\
    stderr (out r) = raised t0 ++ [mock_error] /\
    res r = Ok tt.
Proof.
  intros r.
  assert (H : In (EvCall (CMethod mock_connection "close" []) (Throws mock_error)) (out r)).
  { vm_compute. repeat (try (left; reflexivity); right). }
  split; [exact H|].
  exact (close_failure_is_contained no_close sample_config sample_bind_out
           (start (D := no_close) tt) mock_connection mock_error H).
Defined.

(** The mock running [myproc]: the five outputs, doubled. *)
Lemma records_printed_in_order_witness :
  (respond sample_mock tt (CGetConnection sample_config) =
     (tt, Returns mock_connection) /\
   respond sample_mock tt (CMethod mock_connection "execute" [VStr package_spec]) =
     (tt, Returns (VObj [])) /\
   respond sample_mock tt (CMethod mock_connection "execute" [VStr package_body]) =
     (tt, Returns (VObj [])) /\
   respond sample_mock tt
     (CMethod mock_connection "getDbObjectClass" [VStr "RECTEST.RECTYPE"]) =
     (tt, Returns mock_class) /\
   respond sample_mock tt (CNew mock_class [record_literal "Ship" 12]) =
     (tt, Returns (record_literal "Ship" 12)) /\
   respond sample_mock tt
     (CMethod mock_connection "execute"
        [VStr plsql;
         instance_binds sample_bind_out mock_class (record_literal "Ship" 12)]) =
     (tt, Returns (VObj [("outBinds", VObj [("outbv", record_literal "Ship" 24)])])) /\
   respond sample_mock tt
     (CMethod mock_connection "execute"
        [VStr plsql; values_binds sample_bind_out mock_class "Plane" 34]) =
     (tt, Returns (VObj [("outBinds", VObj [("outbv", record_literal "Plane" 68)])])) /\
   respond sample_mock tt
     (CMethod mock_connection "execute"
        [VStr plsql; named_binds sample_bind_out mock_class "Car" 56]) =
     (tt, Returns (VObj [("outBinds", VObj [("outbv", record_literal "Car" 112)])])) /\
   respond sample_mock tt
     (CMethod mock_connection "executeMany"
        [VStr plsql; many_binds [("Train", 78%Z); ("Bike", 83%Z)];
         many_options sample_bind_out mock_class]) =
     (tt, Returns (VObj [("outBinds",
                          VArr [VObj [("outbv", record_literal "Train" 156)];
                                VObj [("outbv", record_literal "Bike" 166)]])])) /\
   single_outbv (VObj [("outBinds", VObj [("outbv", record_literal "Ship" 24)])]) =
     Ok (record_literal "Ship" 24) /\
   single_outbv (VObj [("outBinds", VObj [("outbv", record_literal "Plane" 68)])]) =
     Ok (record_literal "Plane" 68) /\
   single_outbv (VObj [("outBinds", VObj [("outbv", record_literal "Car" 112)])]) =
     Ok (record_literal "Car" 112) /\
   batch_outbv (VObj [("outBinds",
                       VArr [VObj [("outbv", record_literal "Train" 156)];
                             VObj [("outbv", record_literal "Bike" 166)]])]) =
     Ok [record_literal "Train" 156; record_literal "Bike" 166]) /\
  stdout (out (run sample_mock sample_config sample_bind_out
                 (start (D := sample_mock) tt))) =
    [VStr "Using the constructor to create an object:"; record_literal "Ship" 24;
     VStr (newline ++ "Binding the record values directly:"); record_literal "Plane" 68;
     record_literal "Car" 112;
     VStr (newline ++ "Example with executeMany():");
     record_literal "Train" 156; record_literal "Bike" 166].
Proof.
  split; [repeat split|].
  apply (records_printed_in_order sample_mock sample_config sample_bind_out
           (start (D := sample_mock) tt) tt tt tt tt tt tt tt tt tt
           [("mock", VStr "Connection")] [("fqn", VStr "RECTEST.RECTYPE")]
           (Returns (VObj [])) (Returns (VObj []))
           (record_literal "Ship" 12)
           (VObj [("outBinds", VObj [("outbv", record_literal "Ship" 24)])])
           (VObj [("outBinds", VObj [("outbv", record_literal "Plane" 68)])])
           (VObj [("outBinds", VObj [("outbv", record_literal "Car" 112)])])
           (VObj [("outBinds",
                   VArr [VObj [("outbv", record_literal "Train" 156)];
                         VObj [("outbv", record_literal "Bike" 166)]])]));
    reflexivity.
Defined.

(** ** More on the order of the calls *)


Lemma probes_app (t u : list Event) : probes (t ++ u) = probes t ++ probes u.
Proof. apply flat_map_app. Qed.


Lemma mid_event_no_connect (t : list Event) :
  Forall mid_event t -> filter is_connect (calls t) = [].
Proof.
  intros F. apply filter_nil.
  eapply Forall_impl; [|apply mid_event_calls, F]. simpl. tauto.
Qed.

Lemma mid_event_no_probe (t : list Event) :
  Forall mid_event t -> probes t = [].
Proof.
  induction 1 as [|e t He _ IH]; [reflexivity|].
  destruct e; simpl in *; auto. contradiction.
Qed.

Lemma object_is_truthy (v : Value) : is_object v = true -> truthy v = true.
Proof. now destruct v. Qed.

Lemma cleanup_events_calls (conn : Value) (oc : Outcome) :
  calls (cleanup_events conn oc) =
  if is_object conn then [CMethod conn "close" []] else [].
Proof.
  unfold cleanup_events. destruct conn, oc; try reflexivity;
    simpl; match goal with |- context [if ?b then _ else _] => destruct b end;
    reflexivity.
Qed.

Lemma cleanup_events_no_probe (conn : Value) (oc : Outcome) :
  probes (cleanup_events conn oc) = [].
Proof.
  unfold cleanup_events.
  destruct (truthy conn), (is_object conn), oc; reflexivity.
Qed.

(** X1. Whatever the driver answers, a run asks for a connection exactly
    once, with the configuration, and before anything else. *)
Theorem run_connects_once_and_first
    (D : Driver) (dbConfig BIND_OUT : Value) (s : Frame D) :
  filter is_connect (calls (out (run D dbConfig BIND_OUT s))) =
    [CGetConnection dbConfig] /\
  exists o t,
    out (run D dbConfig BIND_OUT s) = EvCall (CGetConnection dbConfig) o :: t.
Proof.
  destruct (run_anatomy D dbConfig BIND_OUT s) as (t & oc & Ht & F & _ & _).
  rewrite Ht. split.
  - change (?e :: t ++ ?u) with ([e] ++ t ++ u).
    rewrite !calls_app, !filter_app, (mid_event_no_connect t F), cleanup_events_calls.
    destruct (is_object _); reflexivity.
  - eauto.
Qed.

(** X2. Whatever the driver answers, a [close] is asked only of an object
    that [getConnection] returned, at most once, and as the last call of
    the run; when [getConnection] threw or returned no object, nothing is
    closed. *)
Theorem close_is_last_and_guarded
    (D : Driver) (dbConfig BIND_OUT : Value) (s : Frame D) :
  exists pre,
    calls (out (run D dbConfig BIND_OUT s)) =
      pre ++
      (if is_object (acquired (snd (respond D (ds s) (CGetConnection dbConfig))))
       then [CMethod (acquired (snd (respond D (ds s) (CGetConnection dbConfig))))
               "close" []]
       else []) /\
    filter is_close pre = [].
Proof.
  destruct (run_anatomy D dbConfig BIND_OUT s) as (t & oc & Ht & F & _ & _).
  exists (CGetConnection dbConfig :: calls t). split.
  - rewrite Ht.
    change (?e :: t ++ ?u) with ((e :: t) ++ u).
    rewrite calls_app, cleanup_events_calls. reflexivity.
  - cbn [filter is_close]. apply mid_event_no_close, F.
Qed.

Section Order.

Variable D : Driver.











Variable BIND_OUT : Value.




End Order.



(** ** More on the code at module level *)

Lemma run_no_probe (D : Driver) (dbConfig BIND_OUT : Value) (s : Frame D) :
  probes (out (run D dbConfig BIND_OUT s)) = [].
Proof.
  destruct (run_anatomy D dbConfig BIND_OUT s) as (t & oc & Ht & F & _ & _).
  rewrite Ht.
  change (?e :: t ++ ?u) with ([e] ++ t ++ u).
  rewrite !probes_app, (mid_event_no_probe t F), cleanup_events_no_probe.
  reflexivity.
Qed.

Lemma libPath_truthy_iff (host : Host) :
  truthy (libPath host) = true <->
  platform host = "win32" \/ platform host = "darwin".
Proof.
  unfold libPath.
  destruct (platform host =? "win32") eqn:W.
  - apply String.eqb_eq in W. simpl. tauto.
  - apply String.eqb_neq in W.
    destruct (platform host =? "darwin") eqn:M.
    + apply String.eqb_eq in M. cbn [truthy].
      rewrite append_not_empty by discriminate. simpl. tauto.
    + apply String.eqb_neq in M. simpl. split; [discriminate | tauto].
Qed.

(** X4. The script as a whole fails in one way only: it ends with the error
    of [initOracleClient] when the client directory is there and that call
    throws; in every other case, whatever the driver answers afterwards,
    it completes normally. *)
Theorem script_fails_only_when_init_throws
    (D : Driver) (host : Host) (dbConfig BIND_OUT : Value) (s : Frame D) :
  res (script D host dbConfig BIND_OUT s) =
  if client_dir_present host then
    match snd (respond D (ds s) (CInitOracleClient (VObj [("libDir", libPath host)]))) with
    | Returns _ => Ok tt
    | Throws e => Throw e
    end
  else Ok tt.
Proof.
  unfold script. rewrite bind_res, module_init_run.
  destruct (client_dir_present host); cbv zeta; cbn [res st].
  - destruct (snd (respond D (ds s) _)); [|reflexivity].
    match goal with
    | |- res (run D dbConfig BIND_OUT ?f) = _ =>
        destruct (run_anatomy D dbConfig BIND_OUT f) as (t & oc & _ & _ & _ & K)
    end.
    exact K.
  - destruct (run_anatomy D dbConfig BIND_OUT s) as (t & oc & _ & _ & _ & K).
    exact K.
Qed.

(** X6. The script looks at the file system at most once: on Windows and
    macOS it asks [fs.existsSync] about the directory of the platform, once
    and before anything else; on any other platform, and during [run], it
    never does. *)
Theorem file_system_probed_once_at_load
    (D : Driver) (host : Host) (dbConfig BIND_OUT : Value) (s : Frame D) :
  probes (out (script D host dbConfig BIND_OUT s)) =
    (if truthy (libPath host)
     then [(libPath host, fs_existsSync host (libPath host))]
     else []) /\
  (truthy (libPath host) = true <->
   platform host = "win32" \/ platform host = "darwin") /\
  exists t,
    out (script D host dbConfig BIND_OUT s) =
      (if truthy (libPath host)
       then [EvExistsSync (libPath host) (fs_existsSync host (libPath host))]
       else []) ++ t.
Proof.
  split; [|split; [apply libPath_truthy_iff|]].
  - rewrite script_out, probes_app.
    assert (Hr : probes (match res (module_init D host s) with
                         | Ok _ => out (run D dbConfig BIND_OUT (st (module_init D host s)))
                         | Throw _ => []
                         end) = []).
    { destruct (res (module_init D host s)); [apply run_no_probe | reflexivity]. }
    rewrite Hr, app_nil_r, module_init_run. unfold client_dir_present.
    destruct (truthy (libPath host)); cbn [andb].
    + destruct (fs_existsSync host (libPath host)); reflexivity.
    + reflexivity.
  - rewrite script_out, module_init_run. unfold client_dir_present.
    destruct (truthy (libPath host)); cbn [andb].
    + destruct (fs_existsSync host (libPath host)); cbv zeta; cbn [out app]; eauto.
    + cbn [out app]. eauto.
Qed.

(** ** More on failures in the call sequences *)

Section Failures.

Variable D : Driver.
Variable BIND_OUT : Value.

Lemma single_outbv_throws (result e : Value) :
  single_outbv result = Throw e -> e = TypeError.
Proof.
  unfold single_outbv, get_prop. intros H.
  destruct result; try (injection H as <-; reflexivity);
    try (destruct (lookup "outBinds" fields)); try discriminate;
    try (injection H as <-; reflexivity).
Qed.

Lemma execute_and_print_malformed (s : Frame D) (binds : Value)
    (d' : dstate D) (result e : Value) :
  is_object (connection s) = true ->
  respond D (ds s) (CMethod (connection s) "execute" [VStr plsql; binds]) =
    (d', Returns result) ->
  single_outbv result = Throw e ->
  execute_and_print D binds s =
  mkRun (mkFrame d' (connection s))
    [EvCall (CMethod (connection s) "execute" [VStr plsql; binds]) (Returns result);
     EvRaise e]
    (Throw e).
Proof.
  intros Hobj Hr Hv. unfold execute_and_print.
  rewrite bind_run. cbn [get_connection res st out].
  rewrite bind_run. unfold invoke. rewrite Hobj. unfold call. rewrite Hr.
  cbn [fst snd res st out].
  unfold single_outbv in Hv. unfold prop.
  rewrite bind_run.
  destruct (get_prop result "outBinds") as [ob|e'].
  - cbn [lift ret res st out]. rewrite bind_run, Hv. reflexivity.
  - injection Hv as <-. reflexivity.
Qed.

Lemma bind_many_throws (s : Frame D) (cls : Value) (rows : list (string * Z))
    (d' : dstate D) (e : Value) :
  is_object (connection s) = true ->
  respond D (ds s)
    (CMethod (connection s) "executeMany"
       [VStr plsql; many_binds rows; many_options BIND_OUT cls]) =
    (d', Throws e) ->
  bind_many D BIND_OUT cls rows s =
  mkRun (mkFrame d' (connection s))
    [EvLog (VStr (newline ++ "Example with executeMany():"));
     EvCall (CMethod (connection s) "executeMany"
               [VStr plsql; many_binds rows; many_options BIND_OUT cls])
       (Throws e)]
    (Throw e).
Proof.
  intros Hobj Hr. unfold bind_many.
  rewrite bind_run. cbn [console_log res st out]. cbv zeta.
  rewrite bind_run. cbn [get_connection res st out].
  rewrite bind_run. unfold invoke. rewrite Hobj. unfold call. rewrite Hr.
  reflexivity.
Qed.

(** With something in [connection] that is no object, every step that
    needs the connection raises a [TypeError] without asking the driver. *)
Lemma after_connect_without_object (s : Frame D) :
  is_object (connection s) = false ->
  (create_package D ;; RecTypeClass <- get_class D ;;
   call_sequences D BIND_OUT RecTypeClass) s =
  mkRun s
    [EvRaise TypeError; EvError TypeError; EvRaise TypeError; EvError TypeError;
     EvRaise TypeError]
    (Throw TypeError).
Proof.
  intros Hobj.
  assert (Hs : forall sql,
    try_catch
      (conn <- get_connection ;; _ <- invoke conn "execute" [VStr sql] ;; ret tt)
      (fun e => console_error e) s =
    mkRun s [EvRaise TypeError; EvError TypeError] (Ok tt)).
  { intros sql.
    unfold try_catch, bind, get_connection, invoke, raise, console_error.
    simpl. rewrite Hobj. reflexivity. }
  rewrite bind_run. unfold create_package, stmts. cbn [for_each].
  rewrite bind_run, Hs. cbn [res st out].
  rewrite bind_run, Hs. cbn [res st out ret].
  rewrite bind_run. unfold get_class.
  rewrite bind_run. cbn [get_connection res st out].
  unfold invoke. rewrite Hobj. reflexivity.
Qed.

End Failures.

(** X7. When the result of the first call of the procedure carries no
    [outBinds] to read [outbv] from, the read raises a [TypeError]: it is
    logged, only the first label was printed, none of the three later call
    sequences is attempted, and the connection is closed. *)
Theorem result_without_outbv_aborts
    (D : Driver) (dbConfig BIND_OUT : Value) (s : Frame D)
    (d1 d2 d3 d4 d5 d6 d7 : dstate D)
    (fields cfields : list (string * Value)) (o1 o2 oc : Outcome)
    (obj r1 e : Value) :
  respond D (ds s) (CGetConnection dbConfig) = (d1, Returns (VObj fields)) ->
  respond D d1 (CMethod (VObj fields) "execute" [VStr package_spec]) = (d2, o1) ->
  respond D d2 (CMethod (VObj fields) "execute" [VStr package_body]) = (d3, o2) ->
  respond D d3 (CMethod (VObj fields) "getDbObjectClass" [VStr "RECTEST.RECTYPE"]) =
    (d4, Returns (VObj cfields)) ->
  respond D d4 (CNew (VObj cfields) [record_literal "Ship" 12]) = (d5, Returns obj) ->
  respond D d5
    (CMethod (VObj fields) "execute"
       [VStr plsql; instance_binds BIND_OUT (VObj cfields) obj]) = (d6, Returns r1) ->
  single_outbv r1 = Throw e ->
  respond D d6 (CMethod (VObj fields) "close" []) = (d7, oc) ->
  e = TypeError /\
  stdout (out (run D dbConfig BIND_OUT s)) =
    [VStr "Using the constructor to create an object:"] /\
  names (out (run D dbConfig BIND_OUT s)) =
    ["getConnection"; "execute"; "execute"; "getDbObjectClass";
     "new"; "execute"; "close"] /\
  stderr (out (run D dbConfig BIND_OUT s)) =
    stderr (logged o1) ++ stderr (logged o2) ++ [e] ++ stderr (logged oc).
Proof.
  intros H0 H1 H2 H3 H4 H5 V1 H6.
  split; [exact (single_outbv_throws r1 e V1)|].
  rewrite (run_acquired D dbConfig BIND_OUT s d1 fields H0). cbv zeta.
  rewrite H1. cbn [fst snd]. rewrite H2. cbn [fst snd]. rewrite H3. cbn [fst snd].
  unfold call_sequences.
  rewrite bind_run. unfold bind_instance.
  rewrite bind_run. cbn [console_log res st out].
  rewrite bind_run. unfold construct. cbn [is_object]. unfold call.
  cbn [ds connection]. rewrite H4. cbn [fst snd res st out].
  rewrite (execute_and_print_malformed D (mkFrame d5 (VObj fields)) _ d6 r1 e
             eq_refl H5 V1).
  cbn [res st out ds connection app]. rewrite H6. cbn [snd].
  destruct o1, o2, oc; repeat split.
Qed.

(** X8. When [getConnection] returns something that is no object, the
    driver is asked nothing more: each of the two statements and the fetch
    of the class raises a [TypeError] that is logged, nothing is printed,
    and the cleanup raises and logs one more when the value is truthy and
    does nothing when it is falsy; the run completes normally. *)
Theorem no_object_no_further_call
    (D : Driver) (dbConfig BIND_OUT : Value) (s : Frame D)
    (d1 : dstate D) (v : Value) :
  respond D (ds s) (CGetConnection dbConfig) = (d1, Returns v) ->
  is_object v = false ->
  out (run D dbConfig BIND_OUT s) =
    EvCall (CGetConnection dbConfig) (Returns v)
    :: [EvRaise TypeError; EvError TypeError;
        EvRaise TypeError; EvError TypeError;
        EvRaise TypeError; EvError TypeError] ++
       (if truthy v then [EvRaise TypeError; EvError TypeError] else []) /\
  res (run D dbConfig BIND_OUT s) = Ok tt.
Proof.
  intros H Hobj.
  rewrite run_eq. cbv zeta.
  rewrite try_catch_out, try_catch_st, try_catch_log_res, main_sequence_run.
  cbn [ds connection]. rewrite H. cbn [fst snd]. cbv zeta.
  rewrite (after_connect_without_object D BIND_OUT (mkFrame d1 v) Hobj).
  cbn [res st out console_error].
  destruct (cleanup_run D (mkFrame d1 v)) as (Hc & Hk).
  rewrite Hc, Hk. cbn [connection ds]. unfold cleanup_events. rewrite Hobj.
  destruct (truthy v); split; reflexivity.
Qed.

(** X9. When the batched call throws after the three single calls returned,
    the three outputs and the three labels are already printed and stay so;
    the error is logged and the connection is closed. *)
Theorem batch_failure_keeps_earlier_output
    (D : Driver) (dbConfig BIND_OUT : Value) (s : Frame D)
    (d1 d2 d3 d4 d5 d6 d7 d8 d9 d10 : dstate D)
    (fields cfields : list (string * Value)) (o1 o2 oc : Outcome)
    (obj r1 r2 r3 v1 v2 v3 e : Value) :
  respond D (ds s) (CGetConnection dbConfig) = (d1, Returns (VObj fields)) ->
  respond D d1 (CMethod (VObj fields) "execute" [VStr package_spec]) = (d2, o1) ->
  respond D d2 (CMethod (VObj fields) "execute" [VStr package_body]) = (d3, o2) ->
  respond D d3 (CMethod (VObj fields) "getDbObjectClass" [VStr "RECTEST.RECTYPE"]) =
    (d4, Returns (VObj cfields)) ->
  respond D d4 (CNew (VObj cfields) [record_literal "Ship" 12]) = (d5, Returns obj) ->
  respond D d5
    (CMethod (VObj fields) "execute"
       [VStr plsql; instance_binds BIND_OUT (VObj cfields) obj]) = (d6, Returns r1) ->
  respond D d6
    (CMethod (VObj fields) "execute"
       [VStr plsql; values_binds BIND_OUT (VObj cfields) "Plane" 34]) = (d7, Returns r2) ->
  respond D d7
    (CMethod (VObj fields) "execute"
       [VStr plsql; named_binds BIND_OUT (VObj cfields) "Car" 56]) = (d8, Returns r3) ->
  respond D d8
    (CMethod (VObj fields) "executeMany"
       [VStr plsql; many_binds [("Train", 78%Z); ("Bike", 83%Z)];
        many_options BIND_OUT (VObj cfields)]) = (d9, Throws e) ->
  respond D d9 (CMethod (VObj fields) "close" []) = (d10, oc) ->
  single_outbv r1 = Ok v1 ->
  single_outbv r2 = Ok v2 ->
  single_outbv r3 = Ok v3 ->
  stdout (out (run D dbConfig BIND_OUT s)) =
    [VStr "Using the constructor to create an object:"; v1;
     VStr (newline ++ "Binding the record values directly:"); v2;
     v3;
     VStr (newline ++ "Example with executeMany():")] /\
  stderr (out (run D dbConfig BIND_OUT s)) =
    stderr (logged o1) ++ stderr (logged o2) ++ [e] ++ stderr (logged oc) /\
  names (out (run D dbConfig BIND_OUT s)) =
    ["getConnection"; "execute"; "execute"; "getDbObjectClass";
     "new"; "execute"; "execute"; "execute"; "executeMany"; "close"].
Proof.
  intros H0 H1 H2 H3 H4 H5 H6 H7 H8 H9 V1 V2 V3.
  rewrite (run_acquired D dbConfig BIND_OUT s d1 fields H0). cbv zeta.
  rewrite H1. cbn [fst snd]. rewrite H2. cbn [fst snd]. rewrite H3. cbn [fst snd].
  unfold call_sequences.
  rewrite bind_run,
    (bind_instance_returns D BIND_OUT (mkFrame d4 (VObj fields)) cfields "Ship" 12
       d5 d6 obj r1 v1 eq_refl H4 H5 V1).
  cbn [res st out connection].
  rewrite bind_run,
    (bind_values_returns D BIND_OUT (mkFrame d6 (VObj fields)) (VObj cfields)
       "Plane" 34 d7 r2 v2 eq_refl H6 V2).
  cbn [res st out connection].
  rewrite bind_run,
    (bind_named_returns D BIND_OUT (mkFrame d7 (VObj fields)) (VObj cfields)
       "Car" 56 d8 r3 v3 eq_refl H7 V3).
  cbn [res st out connection].
  rewrite (bind_many_throws D BIND_OUT (mkFrame d8 (VObj fields)) (VObj cfields) _
             d9 e eq_refl H8).
  cbn [res st out connection ds app]. rewrite H9. cbn [snd].
  destruct o1, o2, oc; repeat split.
Qed.

(** ** The further theorems at work on concrete drivers *)


(** On Windows with the directory in place and the libraries failing to
    load. *)
Lemma init_failure_ends_script_witness :
  client_dir_present windows_host = true /\
  respond no_client tt
    (CInitOracleClient (VObj [("libDir", libPath windows_host)])) =
    (tt, Throws mock_error) /\
  out (script no_client windows_host sample_config sample_bind_out
         (start (D := no_client) tt)) =
    [EvExistsSync (libPath windows_host) true;
     EvCall (CInitOracleClient (VObj [("libDir", libPath windows_host)]))
       (Throws mock_error)] /\
  res (script no_client windows_host sample_config sample_bind_out
         (start (D := no_client) tt)) = Throw mock_error.
Proof.
  split; [reflexivity|]. split; [reflexivity|].
  apply (init_failure_ends_script no_client windows_host sample_config
           sample_bind_out (start (D := no_client) tt) tt mock_error);
    reflexivity.
Defined.

(** The driver whose results carry no [outBinds]. *)
Lemma result_without_outbv_aborts_witness :
  (respond bare tt (CGetConnection sample_config) = (tt, Returns mock_connection) /\
   respond bare tt (CMethod mock_connection "execute" [VStr package_spec]) =
     (tt, Returns (VObj [])) /\
   respond bare tt (CMethod mock_connection "execute" [VStr package_body]) =
     (tt, Returns (VObj [])) /\
   respond bare tt
     (CMethod mock_connection "getDbObjectClass" [VStr "RECTEST.RECTYPE"]) =
     (tt, Returns mock_class) /\
   respond bare tt (CNew mock_class [record_literal "Ship" 12]) =
     (tt, Returns (record_literal "Ship" 12)) /\
   respond bare tt
     (CMethod mock_connection "execute"
        [VStr plsql;
         instance_binds sample_bind_out mock_class (record_literal "Ship" 12)]) =
     (tt, Returns (VObj [])) /\
   single_outbv (VObj []) = Throw TypeError /\
   respond bare tt (CMethod mock_connection "close" []) = (tt, Returns VUndefined)) /\
  TypeError = TypeError /\
  stdout (out (run bare sample_config sample_bind_out (start (D := bare) tt))) =
    [VStr "Using the constructor to create an object:"] /\
  names (out (run bare sample_config sample_bind_out (start (D := bare) tt))) =
    ["getConnection"; "execute"; "execute"; "getDbObjectClass";
     "new"; "execute"; "close"] /\
  stderr (out (run bare sample_config sample_bind_out (start (D := bare) tt))) =
    [TypeError].
Proof.
  split; [repeat split|].
  apply (result_without_outbv_aborts bare sample_config sample_bind_out
           (start (D := bare) tt) tt tt tt tt tt tt tt
           [("mock", VStr "Connection")] [("fqn", VStr "RECTEST.RECTYPE")]
           (Returns (VObj [])) (Returns (VObj [])) (Returns VUndefined)
           (record_literal "Ship" 12) (VObj []) TypeError);
    reflexivity.
Defined.

(** The driver that hands over [undefined] for a connection. *)
Lemma no_object_no_further_call_witness :
  respond hollow tt (CGetConnection sample_config) = (tt, Returns VUndefined) /\
  is_object VUndefined = false /\
  out (run hollow sample_config sample_bind_out (start (D := hollow) tt)) =
    [EvCall (CGetConnection sample_config) (Returns VUndefined);
     EvRaise TypeError; EvError TypeError;
     EvRaise TypeError; EvError TypeError;
     EvRaise TypeError; EvError TypeError] /\
  res (run hollow sample_config sample_bind_out (start (D := hollow) tt)) = Ok tt.
Proof.
  split; [reflexivity|]. split; [reflexivity|].
  apply (no_object_no_further_call hollow sample_config sample_bind_out
           (start (D := hollow) tt) tt VUndefined); reflexivity.
Defined.

(** The mock refusing the batched call. *)
Lemma batch_failure_keeps_earlier_output_witness :
  (respond no_batch tt (CGetConnection sample_config) = (tt, Returns mock_connection) /\
   respond no_batch tt (CMethod mock_connection "execute" [VStr package_spec]) =
     (tt, Returns (VObj [])) /\
   respond no_batch tt (CMethod mock_connection "execute" [VStr package_body]) =
     (tt, Returns (VObj [])) /\
   respond no_batch tt
     (CMethod mock_connection "getDbObjectClass" [VStr "RECTEST.RECTYPE"]) =
     (tt, Returns mock_class) /\
   respond no_batch tt (CNew mock_class [record_literal "Ship" 12]) =
     (tt, Returns (record_literal "Ship" 12)) /\
   respond no_batch tt
     (CMethod mock_connection "execute"
        [VStr plsql;
         instance_binds sample_bind_out mock_class (record_literal "Ship" 12)]) =
     (tt, Returns (VObj [("outBinds", VObj [("outbv", record_literal "Ship" 24)])])) /\
   respond no_batch tt
     (CMethod mock_connection "execute"
        [VStr plsql; values_binds sample_bind_out mock_class "Plane" 34]) =
     (tt, Returns (VObj [("outBinds", VObj [("outbv", record_literal "Plane" 68)])])) /\
   respond no_batch tt
     (CMethod mock_connection "execute"
        [VStr plsql; named_binds sample_bind_out mock_class "Car" 56]) =
     (tt, Returns (VObj [("outBinds", VObj [("outbv", record_literal "Car" 112)])])) /\
   respond no_batch tt
     (CMethod mock_connection "executeMany"
        [VStr plsql; many_binds [("Train", 78%Z); ("Bike", 83%Z)];
         many_options sample_bind_out mock_class]) = (tt, Throws mock_error) /\
   respond no_batch tt (CMethod mock_connection "close" []) = (tt, Returns VUndefined) /\
   single_outbv (VObj [("outBinds", VObj [("outbv", record_literal "Ship" 24)])]) =
     Ok (record_literal "Ship" 24) /\
   single_outbv (VObj [("outBinds", VObj [("outbv", record_literal "Plane" 68)])]) =
     Ok (record_literal "Plane" 68) /\
   single_outbv (VObj [("outBinds", VObj [("outbv", record_literal "Car" 112)])]) =
     Ok (record_literal "Car" 112)) /\
  stdout (out (run no_batch sample_config sample_bind_out (start (D := no_batch) tt))) =
    [VStr "Using the constructor to create an object:"; record_literal "Ship" 24;
     VStr (newline ++ "Binding the record values directly:"); record_literal "Plane" 68;
     record_literal "Car" 112;
     VStr (newline ++ "Example with executeMany():")] /\
  stderr (out (run no_batch sample_config sample_bind_out (start (D := no_batch) tt))) =
    [mock_error] /\
  names (out (run no_batch sample_config sample_bind_out (start (D := no_batch) tt))) =
    ["getConnection"; "execute"; "execute"; "getDbObjectClass";
     "new"; "execute"; "execute"; "execute"; "executeMany"; "close"].
Proof.
  split; [repeat split|].
  apply (batch_failure_keeps_earlier_output no_batch sample_config sample_bind_out
           (start (D := no_batch) tt) tt tt tt tt tt tt tt tt tt tt
           [("mock", VStr "Connection")] [("fqn", VStr "RECTEST.RECTYPE")]
           (Returns (VObj [])) (Returns (VObj [])) (Returns VUndefined)
           (record_literal "Ship" 12)
           (VObj [("outBinds", VObj [("outbv", record_literal "Ship" 24)])])
           (VObj [("outBinds", VObj [("outbv", record_literal "Plane" 68)])])
           (VObj [("outBinds", VObj [("outbv", record_literal "Car" 112)])])
           (record_literal "Ship" 24) (record_literal "Plane" 68)
           (record_literal "Car" 112) mock_error);
    reflexivity.
Defined.
